(** * The SD card driver of the MPGL1 firmware (drivers/sdcard.c)

    A shallow embedding of the driver's module state, of its four public
    functions and of the nineteen state functions that the
    [G_SdCardStateMachine] function pointer ranges over, followed by the
    properties of the driver.

    Conventions of the embedding.
    - [u8] and [u32] values are integers in [Z]; the places where the C
      code wraps around or truncates are written out.
    - A pointer into [SD_au8RxBuffer] is the index of the element it
      points to; the one-past-the-end pointer is [SDCARD_RX_BUFFER_SIZE].
    - A function pointer is a value of [fn.t], or [None] for a null one.
    - The bus driver, the LED driver, the debug port and the system timer
      live outside the file.  What a state function reads from them during
      one pass is collected in an [Env]; what it asks of them is returned
      as a list of [Call]s, in program order. *)

From Stdlib Require Import ZArith List Bool Lia.
Import ListNotations.
Local Open Scope Z_scope.

(** ** Constants of the headers

    sdcard.c includes configuration.h; none of the macros it takes from
    there is defined in sdcard.c itself, so they are the fields of a
    class.  [IsTimeUp now saved period] stands for
    [IsTimeUp(&G_u32SystemTime1ms, &saved, period, NO_RESET_TARGET_TIMER)]
    evaluated when the system time reads [now]. *)

Class Header := {
  SDCARD_RX_BUFFER_SIZE : Z;
  SD_CMD_SIZE : Z;
  SD_WAKEUP_BYTES : Z;
  SD_CMD_RETRIES : Z;
  SD_SPI_WAIT_TIME_MS : Z;
  SD_WAIT_TIME : Z;
  SD_READ_TOKEN_MS : Z;
  SD_SECTOR_READ_TIMEOUT_MS : Z;
  _SD_CARD_INSERTED : Z;
  _SD_TYPE_SD1 : Z;
  _SD_TYPE_SD2 : Z;
  _SD_CARD_HC : Z;
  SD_CLEAR_CARD_TYPE_BITS : Z;
  SD_STATUS_IDLE : Z;
  SD_STATUS_READY : Z;
  SD_VHS_VALUE : Z;
  SD_CHECK_PATTERN : Z;
  _SD_OCR_CCS_BIT : Z;
  TOKEN_START_BLOCK : Z;
  SD_HOST_CMD : Z;
  SD_CMD0 : Z;
  SD_CMD8 : Z;
  SD_CMD16 : Z;
  SD_CMD17 : Z;
  SD_CMD55 : Z;
  SD_CMD58 : Z;
  SD_ACMD41 : Z;
  SD_CMD0_CRC : Z;
  SD_CMD8_CRC : Z;
  SD_NO_CRC : Z;
  SSP_DUMMY_BYTE : Z;
  SD_ERROR_TIMEOUT : Z;
  SD_ERROR_CARD_VOLTAGE : Z;
  SD_ERROR_BAD_RESPONSE : Z;
  SD_ERROR_NO_TOKEN : Z;
  SD_ERROR_NO_SD_TOKEN : Z;
  IsTimeUp : Z -> Z -> Z -> bool
}.

(** Modelled from the spec: [BIT6] and [BIT7] come from a header that is
    not part of the sources at hand.  They are the masks of bit 6 and of
    bit 7: the spec calls the bit that [BIT7] selects in R1 its top bit,
    and the bit that [BIT6] sets in the first argument byte of ACMD41
    bit 30 of the argument. *)
Definition BIT6 : Z := 0x40.
Definition BIT7 : Z := 0x80.

(** ** Machine arithmetic *)

Definition u32_modulus : Z := 2 ^ 32.
Definition u32 (x : Z) : Z := x mod u32_modulus.
Definition u8 (x : Z) : Z := x mod 256.

(** [~m] on a 32-bit operand. *)
Definition u32_not (m : Z) : Z := u32 (Z.lnot m).

(** ** Enumerations and pointer values *)

Inductive SdCardStateType :=
| SD_NO_CARD | SD_CARD_ERROR | SD_IDLE | SD_READING | SD_DATA_READY | SD_WRITING.

Definition SdCardStateType_eqb (a b : SdCardStateType) : bool :=
  match a, b with
  | SD_NO_CARD, SD_NO_CARD | SD_CARD_ERROR, SD_CARD_ERROR | SD_IDLE, SD_IDLE
  | SD_READING, SD_READING | SD_DATA_READY, SD_DATA_READY
  | SD_WRITING, SD_WRITING => true
  | _, _ => false
  end.

Inductive LedRateType := LED_OFF | LED_1HZ | LED_8HZ | LED_ON.

(** The state functions, as values of the function pointers
    [G_SdCardStateMachine] and [SD_WaitReturnState]. *)
Module fn.
Inductive t :=
| SdIdleNoCard | SdCardDummies | SdCardResponseCMD0 | SdCardResponseCMD8
| SdCardReadCMD8 | SdCardACMD41 | SdCardResponseACMD41 | SdCardResponseCMD58
| SdCardResponseCMD16 | SdCardReadCMD58 | SdCardWaitReady | SdCardWaitCommand
| SdCardWaitSSP | SdCardReadyIdle | SdCardResponseCMD17 | SdCardWaitStartToken
| SdCardDataTransfer | SdFailedDataTransfer | SdError.

Definition eqb (a b : t) : bool :=
  match a, b with
  | SdIdleNoCard, SdIdleNoCard | SdCardDummies, SdCardDummies
  | SdCardResponseCMD0, SdCardResponseCMD0
  | SdCardResponseCMD8, SdCardResponseCMD8
  | SdCardReadCMD8, SdCardReadCMD8 | SdCardACMD41, SdCardACMD41
  | SdCardResponseACMD41, SdCardResponseACMD41
  | SdCardResponseCMD58, SdCardResponseCMD58
  | SdCardResponseCMD16, SdCardResponseCMD16
  | SdCardReadCMD58, SdCardReadCMD58 | SdCardWaitReady, SdCardWaitReady
  | SdCardWaitCommand, SdCardWaitCommand | SdCardWaitSSP, SdCardWaitSSP
  | SdCardReadyIdle, SdCardReadyIdle
  | SdCardResponseCMD17, SdCardResponseCMD17
  | SdCardWaitStartToken, SdCardWaitStartToken
  | SdCardDataTransfer, SdCardDataTransfer
  | SdFailedDataTransfer, SdFailedDataTransfer | SdError, SdError => true
  | _, _ => false
  end.
End fn.

(** The seven command arrays, as values of the pointer [SD_NextCommand]. *)
Module arr.
Inductive t :=
| SD_au8CMD0 | SD_au8CMD8 | SD_au8CMD16 | SD_au8CMD17 | SD_au8CMD55
| SD_au8CMD58 | SD_au8ACMD41.
End arr.

(** The message arrays handed to [DebugPrintf]. *)
Inductive DebugMsg :=
| au8SdCardStarted | SD_au8SspRequestFailed | SD_au8CardReady | SD_au8CardError
| SD_au8CardError0 | SD_au8CardError1 | SD_au8CardError2 | SD_au8CardError3
| SD_au8CardError4 | SD_au8CardError5.

(** ** Module state

    The file-scope variables of sdcard.c that the state functions read or
    write, the two command arrays that are written at run time, and the
    function-local static [u8Retries] of [SdCardWaitCommand].  Of
    [SD_CardStatusLed] only the blink rate changes after initialisation.
    [SD_sSsp0Config] is written once, in [SdCardInitialize], and only ever
    passed to [SspRequest]; [G_u32SdCardFlags] is never used; neither is
    kept. *)

Record State := mkState {
  G_SdCardStateMachine : option fn.t;
  SD_u32Flags : Z;
  SD_CardState : SdCardStateType;
  SD_u8ErrorCode : Z;
  SD_WaitReturnState : option fn.t;
  SD_NextCommand : option arr.t;
  SD_CardStatusLed_eBlinkRate : LedRateType;
  SD_Ssp : Z;
  SD_au8RxBuffer : list Z;
  SD_pu8RxBufferNextByte : Z;
  SD_pu8RxBufferParser : Z;
  SD_u32Timeout : Z;
  SD_u32CurrentMsgToken : Z;
  SD_u32Address : Z;
  SD_au8CMD17 : list Z;
  SD_au8ACMD41 : list Z;
  u8Retries : Z
}.

Definition set_G_SdCardStateMachine v s :=
  let '(mkState _ b c d e f g h i j k l m n o p q) := s in
  mkState v b c d e f g h i j k l m n o p q.
Definition set_SD_u32Flags v s :=
  let '(mkState a _ c d e f g h i j k l m n o p q) := s in
  mkState a v c d e f g h i j k l m n o p q.
Definition set_SD_CardState v s :=
  let '(mkState a b _ d e f g h i j k l m n o p q) := s in
  mkState a b v d e f g h i j k l m n o p q.
Definition set_SD_u8ErrorCode v s :=
  let '(mkState a b c _ e f g h i j k l m n o p q) := s in
  mkState a b c v e f g h i j k l m n o p q.
Definition set_SD_WaitReturnState v s :=
  let '(mkState a b c d _ f g h i j k l m n o p q) := s in
  mkState a b c d v f g h i j k l m n o p q.
Definition set_SD_NextCommand v s :=
  let '(mkState a b c d e _ g h i j k l m n o p q) := s in
  mkState a b c d e v g h i j k l m n o p q.
Definition set_SD_CardStatusLed_eBlinkRate v s :=
  let '(mkState a b c d e f _ h i j k l m n o p q) := s in
  mkState a b c d e f v h i j k l m n o p q.
Definition set_SD_Ssp v s :=
  let '(mkState a b c d e f g _ i j k l m n o p q) := s in
  mkState a b c d e f g v i j k l m n o p q.
Definition set_SD_au8RxBuffer v s :=
  let '(mkState a b c d e f g h _ j k l m n o p q) := s in
  mkState a b c d e f g h v j k l m n o p q.
Definition set_SD_pu8RxBufferNextByte v s :=
  let '(mkState a b c d e f g h i _ k l m n o p q) := s in
  mkState a b c d e f g h i v k l m n o p q.
Definition set_SD_pu8RxBufferParser v s :=
  let '(mkState a b c d e f g h i j _ l m n o p q) := s in
  mkState a b c d e f g h i j v l m n o p q.
Definition set_SD_u32Timeout v s :=
  let '(mkState a b c d e f g h i j k _ m n o p q) := s in
  mkState a b c d e f g h i j k v m n o p q.
Definition set_SD_u32CurrentMsgToken v s :=
  let '(mkState a b c d e f g h i j k l _ n o p q) := s in
  mkState a b c d e f g h i j k l v n o p q.
Definition set_SD_u32Address v s :=
  let '(mkState a b c d e f g h i j k l m _ o p q) := s in
  mkState a b c d e f g h i j k l m v o p q.
Definition set_SD_au8CMD17 v s :=
  let '(mkState a b c d e f g h i j k l m n _ p q) := s in
  mkState a b c d e f g h i j k l m n v p q.
Definition set_SD_au8ACMD41 v s :=
  let '(mkState a b c d e f g h i j k l m n o _ q) := s in
  mkState a b c d e f g h i j k l m n o v q.
Definition set_u8Retries v s :=
  let '(mkState a b c d e f g h i j k l m n o p _) := s in
  mkState a b c d e f g h i j k l m n o p v.

(** ** The outside world *)

(** What one pass through a state function (or one call of
    [SdIsCardInserted]) reads from outside the file.  Every state function
    reads the presence pin, requests the bus, submits a transfer and
    queries the current message at most once, so one value of each is
    enough; the system time is taken to read the same throughout a pass. *)
Record Env := mkEnv {
  P0_22_SD_DET : bool;          (* LPC_GPIO0->FIOPIN & P0_22_SD_DET is non-zero *)
  SspRequest_result : Z;        (* the pointer SspRequest returns; 0 is NULL *)
  Ssp_token : Z;                (* what SspReadByte/SspReadData/SspWriteData returns *)
  QueryMessageStatus_COMPLETE : bool;
                                (* QueryMessageStatus(SD_u32CurrentMsgToken) == COMPLETE *)
  G_u32SystemTime1ms : Z
}.

(** What the driver asks of the other drivers.  [SspWriteData_call] keeps
    the array the data pointer designates and the bytes of that array at
    the time of the call. *)
Inductive Call :=
| SD_POWER_ON_call
| SspRequest_call
| SspRelease_call (ssp : Z)
| SspAssertCS_call (ssp : Z)
| SspDeAssertCS_call (ssp : Z)
| SspReadByte_call (ssp : Z)
| SspReadData_call (ssp : Z) (n : Z)
| SspWriteData_call (ssp : Z) (n : Z) (src : option arr.t) (bytes : list Z)
| LedRequest_call (rate : LedRateType)
| DebugPrintf_call (msg : DebugMsg).

(** ** A state monad that also collects the calls *)

Definition M (A : Type) : Type := State -> A * State * list Call.

Definition ret {A} (a : A) : M A := fun s => (a, s, []).

Definition bind {A B} (m : M A) (f : A -> M B) : M B :=
  fun s =>
    let '(a, s1, c1) := m s in
    let '(b, s2, c2) := f a s1 in
    (b, s2, c1 ++ c2).

Definition get : M State := fun s => (s, s, []).
Definition modify (f : State -> State) : M unit := fun s => (tt, f s, []).
Definition call (c : Call) : M unit := fun s => (tt, s, [c]).
Definition skip : M unit := ret tt.

(** State and calls after running a state function. *)
Definition exec {A} (m : M A) (s : State) : State * list Call :=
  let '(_, s', c) := m s in (s', c).

Declare Scope sd_scope.
Delimit Scope sd_scope with sd.
Notation "x <- m ;; k" := (bind m (fun x => k))
  (at level 61, m at next level, right associativity) : sd_scope.
Notation "m ;; k" := (bind m (fun _ => k))
  (at level 61, right associativity) : sd_scope.
Notation "f ::= v" := (modify (f v)) (at level 60) : sd_scope.
Local Open Scope sd_scope.

(** ** Array helpers *)

(** [a[i]] for reading; an index outside the array reads 0. *)
Definition rd (a : list Z) (i : Z) : Z := nth (Z.to_nat i) a 0.

(** [a[i] = v]; the array is left alone when [i] is outside it. *)
Fixpoint wr_nat (a : list Z) (i : nat) (v : Z) : list Z :=
  match a, i with
  | [], _ => []
  | _ :: t, O => v :: t
  | h :: t, S i' => h :: wr_nat t i' v
  end.

Definition wr (a : list Z) (i : Z) (v : Z) : list Z :=
  if i <? 0 then a else wr_nat a (Z.to_nat i) v.

(** ** The driver *)

Section Driver.
Context {hdr : Header}.

(** *** The command arrays

    The initialisers of the seven arrays.  CMD17 and ACMD41 are written at
    run time, so their current bytes are part of [State]; the other five
    are only ever read. *)

Definition SD_au8CMD0 : list Z :=
  [Z.lor SD_HOST_CMD SD_CMD0; 0; 0; 0; 0; SD_CMD0_CRC; SSP_DUMMY_BYTE].
Definition SD_au8CMD8 : list Z :=
  [Z.lor SD_HOST_CMD SD_CMD8; 0; 0; SD_VHS_VALUE; SD_CHECK_PATTERN;
   SD_CMD8_CRC; SSP_DUMMY_BYTE].
Definition SD_au8CMD16 : list Z :=
  [Z.lor SD_HOST_CMD SD_CMD16; 0; 0; 0x02; 0x00; SD_NO_CRC; SSP_DUMMY_BYTE].
Definition SD_au8CMD17_initial : list Z :=
  [Z.lor SD_HOST_CMD SD_CMD17; 0; 0; 0; 0; SD_NO_CRC; SSP_DUMMY_BYTE].
Definition SD_au8CMD55 : list Z :=
  [Z.lor SD_HOST_CMD SD_CMD55; 0; 0; 0; 0; SD_NO_CRC; SSP_DUMMY_BYTE].
Definition SD_au8CMD58 : list Z :=
  [Z.lor SD_HOST_CMD SD_CMD58; 0; 0; 0; 0; SD_NO_CRC; SSP_DUMMY_BYTE].
Definition SD_au8ACMD41_initial : list Z :=
  [Z.lor SD_HOST_CMD SD_ACMD41; 0; 0; 0; 0; SD_NO_CRC; SSP_DUMMY_BYTE].

(** The bytes a command pointer designates in state [s]. *)
Definition array_bytes (s : State) (p : option arr.t) : list Z :=
  match p with
  | None => []
  | Some arr.SD_au8CMD0 => SD_au8CMD0
  | Some arr.SD_au8CMD8 => SD_au8CMD8
  | Some arr.SD_au8CMD16 => SD_au8CMD16
  | Some arr.SD_au8CMD17 => SD_au8CMD17 s
  | Some arr.SD_au8CMD55 => SD_au8CMD55
  | Some arr.SD_au8CMD58 => SD_au8CMD58
  | Some arr.SD_au8ACMD41 => SD_au8ACMD41 s
  end.

(** *** Calls into the bus driver, made with the handle [SD_Ssp] *)

Definition SspDeAssertCS : M unit :=
  s <- get ;; call (SspDeAssertCS_call (SD_Ssp s)).
Definition SspAssertCS : M unit :=
  s <- get ;; call (SspAssertCS_call (SD_Ssp s)).
Definition SspRelease : M unit :=
  s <- get ;; call (SspRelease_call (SD_Ssp s)).
Definition SspReadByte (e : Env) : M Z :=
  s <- get ;; call (SspReadByte_call (SD_Ssp s)) ;; ret (Ssp_token e).
Definition SspReadData (e : Env) (n : Z) : M Z :=
  s <- get ;; call (SspReadData_call (SD_Ssp s) n) ;; ret (Ssp_token e).
Definition SspWriteData (e : Env) (n : Z) (p : option arr.t) : M Z :=
  s <- get ;;
  call (SspWriteData_call (SD_Ssp s) n p (array_bytes s p)) ;;
  ret (Ssp_token e).
Definition SspRequest (e : Env) : M Z :=
  call SspRequest_call ;; ret (SspRequest_result e).
Definition LedRequest : M unit :=
  s <- get ;; call (LedRequest_call (SD_CardStatusLed_eBlinkRate s)).
Definition DebugPrintf (m : DebugMsg) : M unit := call (DebugPrintf_call m).

(** [*SD_pu8RxBufferParser] *)
Definition parser_byte (s : State) : Z :=
  rd (SD_au8RxBuffer s) (SD_pu8RxBufferParser s).

(** *** Public functions *)

Definition SdIsCardInserted (e : Env) : M bool :=
  if P0_22_SD_DET e then
    s <- get ;;
    set_SD_u32Flags ::= Z.land (SD_u32Flags s) (u32_not _SD_CARD_INSERTED) ;;
    set_SD_CardState ::= SD_NO_CARD ;;
    ret false
  else
    s <- get ;;
    set_SD_u32Flags ::= Z.lor (SD_u32Flags s) _SD_CARD_INSERTED ;;
    ret true.

Definition SdGetStatus : M SdCardStateType :=
  s <- get ;; ret (SD_CardState s).

Definition SdReadBlock (u32SectorAddress_ : Z) : M bool :=
  s <- get ;;
  if SdCardStateType_eqb (SD_CardState s) SD_IDLE then
    set_SD_u32Address ::= u32SectorAddress_ ;;
    (if Z.land (SD_u32Flags s) _SD_CARD_HC =? 0 then
       s1 <- get ;;
       set_SD_u32Address ::= u32 (SD_u32Address s1 * 512)
     else skip) ;;
    set_SD_CardState ::= SD_READING ;;
    ret true
  else
    ret false.

Definition SdWriteBlock (u32BlockAddress_ : Z) : M bool :=
  ret false.

(** The copy loop of [SdGetReadData]: [n] more rounds, the next one with
    loop counter [i]; the destination pointer moves in step with [i]. *)
Fixpoint copy_loop (n : nat) (i : Z) (src dst : list Z) : list Z :=
  match n with
  | O => dst
  | S n' => copy_loop n' (i + 1) src (wr dst i (rd src i))
  end.

(** The memory [pu8Destination_] points to is passed in and handed back. *)
Definition SdGetReadData (pu8Destination_ : list Z) : M (bool * list Z) :=
  s <- get ;;
  if SdCardStateType_eqb (SD_CardState s) SD_DATA_READY then
    set_SD_CardState ::= SD_IDLE ;;
    ret (true, copy_loop 512 0 (SD_au8RxBuffer s) pu8Destination_)
  else
    ret (false, pu8Destination_).

(** *** Protected and private functions *)

Fixpoint clear_loop (n : nat) (i : Z) (a : list Z) : list Z :=
  match n with
  | O => a
  | S n' => clear_loop n' (i + 1) (wr a i 0)
  end.

Definition SdCardInitialize : M unit :=
  s <- get ;;
  set_SD_au8RxBuffer ::=
    clear_loop (Z.to_nat SDCARD_RX_BUFFER_SIZE) 0 (SD_au8RxBuffer s) ;;
  set_SD_pu8RxBufferNextByte ::= 0 ;;
  set_SD_pu8RxBufferParser ::= 0 ;;
  set_SD_CardStatusLed_eBlinkRate ::= LED_OFF ;;
  LedRequest ;;
  call SD_POWER_ON_call ;;
  set_G_SdCardStateMachine ::= Some fn.SdIdleNoCard ;;
  DebugPrintf au8SdCardStarted.

Definition SdCommand (e : Env) (pau8Command_ : arr.t) : M unit :=
  set_SD_NextCommand ::= Some pau8Command_ ;;
  SspDeAssertCS ;;
  set_SD_u32Timeout ::= G_u32SystemTime1ms e ;;
  tok <- SspReadByte e ;;
  set_SD_u32CurrentMsgToken ::= tok ;;
  if negb (tok =? 0) then
    set_G_SdCardStateMachine ::= Some fn.SdCardWaitReady ;;
    SspAssertCS
  else
    set_SD_u8ErrorCode ::= SD_ERROR_NO_TOKEN ;;
    set_G_SdCardStateMachine ::= Some fn.SdError.

Definition CheckTimeout (e : Env) (u32Time_ : Z) : M unit :=
  s <- get ;;
  if IsTimeUp (G_u32SystemTime1ms e) (SD_u32Timeout s) u32Time_ then
    set_SD_u8ErrorCode ::= SD_ERROR_TIMEOUT ;;
    set_G_SdCardStateMachine ::= Some fn.SdError
  else skip.

(** One round of the loop of [AdvanceSD_pu8RxBufferParser]: increment the
    pointer, and put it back to the first element when it has reached
    [&SD_au8RxBuffer[SDCARD_RX_BUFFER_SIZE]]. *)
Definition advance_once (p : Z) : Z :=
  let p' := p + 1 in
  if p' =? SDCARD_RX_BUFFER_SIZE then 0 else p'.

Fixpoint advance_loop (n : nat) (p : Z) : Z :=
  match n with
  | O => p
  | S n' => advance_loop n' (advance_once p)
  end.

Definition AdvanceSD_pu8RxBufferParser (u32NumBytes_ : Z) : M unit :=
  s <- get ;;
  set_SD_pu8RxBufferParser ::=
    advance_loop (Z.to_nat u32NumBytes_) (SD_pu8RxBufferParser s).

Definition FlushSdRxBuffer : M unit :=
  s <- get ;;
  set_SD_pu8RxBufferParser ::= SD_pu8RxBufferNextByte s.

(** *** State functions *)

(** Wait for a card to be inserted. *)
Definition SdIdleNoCard (e : Env) : M unit :=
  inserted <- SdIsCardInserted e ;;
  if inserted then
    ssp <- SspRequest e ;;
    set_SD_Ssp ::= ssp ;;
    if ssp =? 0 then
      DebugPrintf SD_au8SspRequestFailed ;;
      set_SD_u32Timeout ::= G_u32SystemTime1ms e ;;
      set_SD_WaitReturnState ::= Some fn.SdIdleNoCard ;;
      set_G_SdCardStateMachine ::= Some fn.SdCardWaitSSP
    else
      s <- get ;;
      set_SD_u32Flags ::= Z.land (SD_u32Flags s) SD_CLEAR_CARD_TYPE_BITS ;;
      FlushSdRxBuffer ;;
      set_SD_CardStatusLed_eBlinkRate ::= LED_1HZ ;;
      LedRequest ;;
      tok <- SspReadData e SD_WAKEUP_BYTES ;;
      set_SD_u32CurrentMsgToken ::= tok ;;
      if negb (tok =? 0) then
        SspAssertCS ;;
        set_G_SdCardStateMachine ::= Some fn.SdCardDummies
      else
        set_SD_u8ErrorCode ::= SD_ERROR_NO_TOKEN ;;
        set_G_SdCardStateMachine ::= Some fn.SdError
  else skip.

(** Send dummies to wake up the card. *)
Definition SdCardDummies (e : Env) : M unit :=
  if QueryMessageStatus_COMPLETE e then
    AdvanceSD_pu8RxBufferParser SD_WAKEUP_BYTES ;;
    SdCommand e arr.SD_au8CMD0 ;;
    set_SD_WaitReturnState ::= Some fn.SdCardResponseCMD0
  else skip.

(** Check the response to CMD0. *)
Definition SdCardResponseCMD0 (e : Env) : M unit :=
  s <- get ;;
  (if parser_byte s =? SD_STATUS_IDLE then
     SdCommand e arr.SD_au8CMD8 ;;
     set_SD_WaitReturnState ::= Some fn.SdCardResponseCMD8
   else
     set_SD_u8ErrorCode ::= SD_ERROR_BAD_RESPONSE ;;
     set_G_SdCardStateMachine ::= Some fn.SdError) ;;
  AdvanceSD_pu8RxBufferParser 1.

(** Queue a read to get the CMD8 data. *)
Definition SdCardResponseCMD8 (e : Env) : M unit :=
  s <- get ;;
  (if parser_byte s =? SD_STATUS_IDLE then
     set_SD_u32Flags ::= Z.lor (SD_u32Flags s) _SD_TYPE_SD2 ;;
     tok <- SspReadData e 4 ;;
     set_SD_u32CurrentMsgToken ::= tok ;;
     if negb (tok =? 0) then
       set_G_SdCardStateMachine ::= Some fn.SdCardReadCMD8
     else
       set_SD_u8ErrorCode ::= SD_ERROR_NO_TOKEN ;;
       set_G_SdCardStateMachine ::= Some fn.SdError
   else
     SdCommand e arr.SD_au8CMD55 ;;
     set_SD_WaitReturnState ::= Some fn.SdCardACMD41) ;;
  AdvanceSD_pu8RxBufferParser 1.

(** Wait for a response to CMD8. *)
Definition SdCardReadCMD8 (e : Env) : M unit :=
  (if QueryMessageStatus_COMPLETE e then
     AdvanceSD_pu8RxBufferParser 2 ;;
     s <- get ;;
     if parser_byte s =? SD_VHS_VALUE then
       AdvanceSD_pu8RxBufferParser 1 ;;
       s1 <- get ;;
       (if parser_byte s1 =? SD_CHECK_PATTERN then
          SdCommand e arr.SD_au8CMD55 ;;
          set_SD_WaitReturnState ::= Some fn.SdCardACMD41
        else skip) ;;
       AdvanceSD_pu8RxBufferParser 1
     else
       set_SD_u8ErrorCode ::= SD_ERROR_CARD_VOLTAGE ;;
       set_G_SdCardStateMachine ::= Some fn.SdError
   else skip) ;;
  CheckTimeout e SD_SPI_WAIT_TIME_MS.

(** Check the response to CMD55. *)
Definition SdCardACMD41 (e : Env) : M unit :=
  s <- get ;;
  (if parser_byte s =? SD_STATUS_IDLE then
     (if negb (Z.land (SD_u32Flags s) _SD_TYPE_SD2 =? 0) then
        set_SD_au8ACMD41 ::=
          wr (SD_au8ACMD41 s) 1 (Z.lor (rd (SD_au8ACMD41 s) 1) BIT6)
      else skip) ;;
     SdCommand e arr.SD_au8ACMD41 ;;
     set_SD_WaitReturnState ::= Some fn.SdCardResponseACMD41
   else
     set_SD_u8ErrorCode ::= SD_ERROR_BAD_RESPONSE ;;
     set_G_SdCardStateMachine ::= Some fn.SdError) ;;
  AdvanceSD_pu8RxBufferParser 1.

(** Check the response to ACMD41. *)
Definition SdCardResponseACMD41 (e : Env) : M unit :=
  s <- get ;;
  (if parser_byte s =? SD_STATUS_READY then
     if negb (Z.land (SD_u32Flags s) _SD_TYPE_SD2 =? 0) then
       SdCommand e arr.SD_au8CMD58 ;;
       set_SD_WaitReturnState ::= Some fn.SdCardResponseCMD58
     else
       set_SD_u32Flags ::= Z.lor (SD_u32Flags s) _SD_TYPE_SD1 ;;
       SdCommand e arr.SD_au8CMD16 ;;
       set_SD_WaitReturnState ::= Some fn.SdCardResponseCMD16
   else
     SdCommand e arr.SD_au8CMD55 ;;
     set_SD_WaitReturnState ::= Some fn.SdCardACMD41) ;;
  AdvanceSD_pu8RxBufferParser 1.

(** Queue a read to get the CMD58 data. *)
Definition SdCardResponseCMD58 (e : Env) : M unit :=
  s <- get ;;
  (if parser_byte s =? SD_STATUS_READY then
     tok <- SspReadData e 4 ;;
     set_SD_u32CurrentMsgToken ::= tok ;;
     if negb (tok =? 0) then
       set_G_SdCardStateMachine ::= Some fn.SdCardReadCMD58
     else
       set_SD_u8ErrorCode ::= SD_ERROR_NO_TOKEN ;;
       set_G_SdCardStateMachine ::= Some fn.SdError
   else
     set_SD_u8ErrorCode ::= SD_ERROR_BAD_RESPONSE ;;
     set_G_SdCardStateMachine ::= Some fn.SdError) ;;
  AdvanceSD_pu8RxBufferParser 1.

(** Process the response to CMD16. *)
Definition SdCardResponseCMD16 (e : Env) : M unit :=
  s <- get ;;
  (if parser_byte s =? SD_STATUS_READY then
     SspDeAssertCS ;;
     SspRelease ;;
     set_SD_CardState ::= SD_IDLE ;;
     set_SD_CardStatusLed_eBlinkRate ::= LED_ON ;;
     LedRequest ;;
     DebugPrintf SD_au8CardReady ;;
     set_G_SdCardStateMachine ::= Some fn.SdCardReadyIdle
   else
     set_SD_u8ErrorCode ::= SD_ERROR_BAD_RESPONSE ;;
     set_G_SdCardStateMachine ::= Some fn.SdError) ;;
  AdvanceSD_pu8RxBufferParser 1.

(** Wait for the data of CMD58. *)
Definition SdCardReadCMD58 (e : Env) : M unit :=
  (if QueryMessageStatus_COMPLETE e then
     s <- get ;;
     set_SD_u32Flags ::= Z.land (SD_u32Flags s) (u32_not _SD_CARD_HC) ;;
     (if negb (Z.land (parser_byte s) _SD_OCR_CCS_BIT =? 0) then
        s1 <- get ;;
        set_SD_u32Flags ::= Z.lor (SD_u32Flags s1) _SD_CARD_HC ;;
        SspDeAssertCS ;;
        SspRelease ;;
        set_SD_CardState ::= SD_IDLE ;;
        set_SD_CardStatusLed_eBlinkRate ::= LED_ON ;;
        LedRequest ;;
        DebugPrintf SD_au8CardReady ;;
        set_G_SdCardStateMachine ::= Some fn.SdCardReadyIdle
      else
        SdCommand e arr.SD_au8CMD16 ;;
        set_SD_WaitReturnState ::= Some fn.SdCardResponseCMD16) ;;
     AdvanceSD_pu8RxBufferParser 4
   else skip) ;;
  CheckTimeout e SD_SPI_WAIT_TIME_MS.

(** Kill time waiting for the card to indicate it is ready after CS. *)
Definition SdCardWaitReady (e : Env) : M unit :=
  (if QueryMessageStatus_COMPLETE e then
     s <- get ;;
     if negb (parser_byte s =? 0xFF) then
       tok <- SspReadByte e ;;
       set_SD_u32CurrentMsgToken ::= tok ;;
       (if tok =? 0 then
          set_SD_u8ErrorCode ::= SD_ERROR_NO_TOKEN ;;
          set_G_SdCardStateMachine ::= Some fn.SdError
        else skip) ;;
       AdvanceSD_pu8RxBufferParser 1
     else
       tok <- SspWriteData e SD_CMD_SIZE (SD_NextCommand s) ;;
       set_SD_u32CurrentMsgToken ::= tok ;;
       AdvanceSD_pu8RxBufferParser SD_CMD_SIZE ;;
       set_SD_u32Timeout ::= G_u32SystemTime1ms e ;;
       set_G_SdCardStateMachine ::= Some fn.SdCardWaitCommand
   else skip) ;;
  CheckTimeout e SD_SPI_WAIT_TIME_MS.

(** Kill time waiting for a command to finish sending. *)
Definition SdCardWaitCommand (e : Env) : M unit :=
  (if QueryMessageStatus_COMPLETE e then
     s <- get ;;
     if negb (Z.land (parser_byte s) BIT7 =? 0) && negb (u8Retries s =? 0) then
       set_u8Retries ::= u8Retries s - 1 ;;
       tok <- SspReadByte e ;;
       set_SD_u32CurrentMsgToken ::= tok ;;
       (if tok =? 0 then
          set_SD_u8ErrorCode ::= SD_ERROR_NO_TOKEN ;;
          set_G_SdCardStateMachine ::= Some fn.SdError
        else skip) ;;
       AdvanceSD_pu8RxBufferParser 1
     else
       set_u8Retries ::= SD_CMD_RETRIES ;;
       set_G_SdCardStateMachine ::= SD_WaitReturnState s
   else skip) ;;
  s <- get ;;
  if IsTimeUp (G_u32SystemTime1ms e) (SD_u32Timeout s) SD_WAIT_TIME then
    set_u8Retries ::= SD_CMD_RETRIES ;;
    set_SD_u8ErrorCode ::= SD_ERROR_TIMEOUT ;;
    set_G_SdCardStateMachine ::= Some fn.SdError
  else skip.

(** Kill time before checking SSP availability again. *)
Definition SdCardWaitSSP (e : Env) : M unit :=
  s <- get ;;
  if IsTimeUp (G_u32SystemTime1ms e) (SD_u32Timeout s) SD_SPI_WAIT_TIME_MS then
    set_SD_CardStatusLed_eBlinkRate ::= LED_OFF ;;
    LedRequest ;;
    set_G_SdCardStateMachine ::= SD_WaitReturnState s
  else skip.

(** The card is initialised: wait for an action request. *)
Definition SdCardReadyIdle (e : Env) : M unit :=
  inserted <- SdIsCardInserted e ;;
  (if negb inserted then
     set_SD_CardStatusLed_eBlinkRate ::= LED_OFF ;;
     LedRequest ;;
     s <- get ;;
     set_SD_u32Flags ::= Z.land (SD_u32Flags s) SD_CLEAR_CARD_TYPE_BITS ;;
     set_SD_u32Timeout ::= G_u32SystemTime1ms e ;;
     set_SD_WaitReturnState ::= Some fn.SdIdleNoCard ;;
     set_G_SdCardStateMachine ::= Some fn.SdCardWaitSSP
   else skip) ;;
  s <- get ;;
  if SdCardStateType_eqb (SD_CardState s) SD_WRITING
     || SdCardStateType_eqb (SD_CardState s) SD_READING then
    ssp <- SspRequest e ;;
    set_SD_Ssp ::= ssp ;;
    if ssp =? 0 then
      DebugPrintf SD_au8SspRequestFailed ;;
      set_SD_u32Timeout ::= G_u32SystemTime1ms e ;;
      set_SD_WaitReturnState ::= Some fn.SdCardReadyIdle ;;
      set_G_SdCardStateMachine ::= Some fn.SdCardWaitSSP
    else
      if SdCardStateType_eqb (SD_CardState s) SD_WRITING then
        set_G_SdCardStateMachine ::= Some fn.SdCardReadyIdle ;;
        set_SD_CardState ::= SD_IDLE
      else
        s1 <- get ;;
        set_SD_au8CMD17 ::=
          wr (SD_au8CMD17 s1) 1 (u8 (Z.shiftr (SD_u32Address s1) 24)) ;;
        s2 <- get ;;
        set_SD_au8CMD17 ::=
          wr (SD_au8CMD17 s2) 2 (u8 (Z.shiftr (SD_u32Address s2) 16)) ;;
        s3 <- get ;;
        set_SD_au8CMD17 ::=
          wr (SD_au8CMD17 s3) 3 (u8 (Z.shiftr (SD_u32Address s3) 8)) ;;
        s4 <- get ;;
        set_SD_au8CMD17 ::= wr (SD_au8CMD17 s4) 4 (u8 (SD_u32Address s4)) ;;
        SdCommand e arr.SD_au8CMD17 ;;
        set_SD_WaitReturnState ::= Some fn.SdCardResponseCMD17
  else skip.

(** Start the read sequence. *)
Definition SdCardResponseCMD17 (e : Env) : M unit :=
  s <- get ;;
  (if parser_byte s =? SD_STATUS_READY then
     tok <- SspReadByte e ;;
     set_SD_u32CurrentMsgToken ::= tok ;;
     set_SD_u32Timeout ::= G_u32SystemTime1ms e ;;
     set_G_SdCardStateMachine ::= Some fn.SdCardWaitStartToken
   else
     set_SD_u8ErrorCode ::= SD_ERROR_BAD_RESPONSE ;;
     set_G_SdCardStateMachine ::= Some fn.SdFailedDataTransfer) ;;
  AdvanceSD_pu8RxBufferParser 1.

(** Look for the token that says the block is about to come. *)
Definition SdCardWaitStartToken (e : Env) : M unit :=
  (if QueryMessageStatus_COMPLETE e then
     s <- get ;;
     if parser_byte s =? TOKEN_START_BLOCK then
       set_SD_pu8RxBufferNextByte ::= 0 ;;
       set_SD_pu8RxBufferParser ::= 0 ;;
       tok <- SspReadData e 514 ;;
       set_SD_u32CurrentMsgToken ::= tok ;;
       set_G_SdCardStateMachine ::= Some fn.SdCardDataTransfer
     else
       tok <- SspReadByte e ;;
       set_SD_u32CurrentMsgToken ::= tok ;;
       AdvanceSD_pu8RxBufferParser 1
   else skip) ;;
  s <- get ;;
  if IsTimeUp (G_u32SystemTime1ms e) (SD_u32Timeout s) SD_READ_TOKEN_MS then
    set_SD_u8ErrorCode ::= SD_ERROR_TIMEOUT ;;
    set_G_SdCardStateMachine ::= Some fn.SdFailedDataTransfer
  else skip.

(** Read the sector. *)
Definition SdCardDataTransfer (e : Env) : M unit :=
  (if QueryMessageStatus_COMPLETE e then
     set_SD_CardState ::= SD_DATA_READY ;;
     SspDeAssertCS ;;
     SspRelease ;;
     set_SD_pu8RxBufferNextByte ::= 0 ;;
     set_SD_pu8RxBufferParser ::= 0 ;;
     set_G_SdCardStateMachine ::= Some fn.SdCardReadyIdle
   else skip) ;;
  s <- get ;;
  if IsTimeUp (G_u32SystemTime1ms e) (SD_u32Timeout s)
       SD_SECTOR_READ_TIMEOUT_MS then
    set_SD_u8ErrorCode ::= SD_ERROR_TIMEOUT ;;
    set_G_SdCardStateMachine ::= Some fn.SdError
  else skip.

(** Handle a failed data transfer. *)
Definition SdFailedDataTransfer (e : Env) : M unit :=
  SspDeAssertCS ;;
  SspRelease ;;
  FlushSdRxBuffer ;;
  set_SD_CardState ::= SD_CARD_ERROR ;;
  set_SD_u32Timeout ::= G_u32SystemTime1ms e ;;
  set_G_SdCardStateMachine ::= Some fn.SdCardWaitSSP.

(** The [switch] of [SdError]: the message that goes with an error code. *)
Definition error_message (code : Z) : DebugMsg :=
  if code =? SD_ERROR_TIMEOUT then SD_au8CardError1
  else if code =? SD_ERROR_CARD_VOLTAGE then SD_au8CardError2
  else if code =? SD_ERROR_BAD_RESPONSE then SD_au8CardError3
  else if code =? SD_ERROR_NO_TOKEN then SD_au8CardError4
  else if code =? SD_ERROR_NO_SD_TOKEN then SD_au8CardError5
  else SD_au8CardError0.

(** Handle an error. *)
Definition SdError (e : Env) : M unit :=
  SspDeAssertCS ;;
  SspRelease ;;
  FlushSdRxBuffer ;;
  set_SD_CardStatusLed_eBlinkRate ::= LED_8HZ ;;
  LedRequest ;;
  DebugPrintf SD_au8CardError ;;
  s <- get ;;
  DebugPrintf (error_message (SD_u8ErrorCode s)) ;;
  set_SD_CardState ::= SD_NO_CARD ;;
  set_SD_u32Timeout ::= G_u32SystemTime1ms e ;;
  set_SD_WaitReturnState ::= Some fn.SdIdleNoCard ;;
  set_G_SdCardStateMachine ::= Some fn.SdCardWaitSSP.

(** *** Running the state machine *)

(** The function a function pointer designates. *)
Definition state_function (f : fn.t) : Env -> M unit :=
  match f with
  | fn.SdIdleNoCard => SdIdleNoCard
  | fn.SdCardDummies => SdCardDummies
  | fn.SdCardResponseCMD0 => SdCardResponseCMD0
  | fn.SdCardResponseCMD8 => SdCardResponseCMD8
  | fn.SdCardReadCMD8 => SdCardReadCMD8
  | fn.SdCardACMD41 => SdCardACMD41
  | fn.SdCardResponseACMD41 => SdCardResponseACMD41
  | fn.SdCardResponseCMD58 => SdCardResponseCMD58
  | fn.SdCardResponseCMD16 => SdCardResponseCMD16
  | fn.SdCardReadCMD58 => SdCardReadCMD58
  | fn.SdCardWaitReady => SdCardWaitReady
  | fn.SdCardWaitCommand => SdCardWaitCommand
  | fn.SdCardWaitSSP => SdCardWaitSSP
  | fn.SdCardReadyIdle => SdCardReadyIdle
  | fn.SdCardResponseCMD17 => SdCardResponseCMD17
  | fn.SdCardWaitStartToken => SdCardWaitStartToken
  | fn.SdCardDataTransfer => SdCardDataTransfer
  | fn.SdFailedDataTransfer => SdFailedDataTransfer
  | fn.SdError => SdError
  end.

(** [G_SdCardStateMachine()], the call the scheduler makes once per pass;
    there is no result when the pointer is null. *)
Definition tick (e : Env) (s : State) : option (State * list Call) :=
  match G_SdCardStateMachine s with
  | Some f => Some (exec (state_function f e) s)
  | None => None
  end.

End Driver.

(** ** Runs of the driver *)

Section Runs.
Context {hdr : Header}.

(** The module state before [SdCardInitialize]: objects of static storage
    duration start out as zero (for [SD_CardState] that is the first
    enumerator, [SD_NO_CARD] in the order in which the driver lists them),
    the command arrays and [u8Retries] have their initialisers. *)
Definition power_on : State :=
  {| G_SdCardStateMachine := None;
     SD_u32Flags := 0;
     SD_CardState := SD_NO_CARD;
     SD_u8ErrorCode := 0;
     SD_WaitReturnState := None;
     SD_NextCommand := None;
     SD_CardStatusLed_eBlinkRate := LED_OFF;
     SD_Ssp := 0;
     SD_au8RxBuffer := repeat 0 (Z.to_nat SDCARD_RX_BUFFER_SIZE);
     SD_pu8RxBufferNextByte := 0;
     SD_pu8RxBufferParser := 0;
     SD_u32Timeout := 0;
     SD_u32CurrentMsgToken := 0;
     SD_u32Address := 0;
     SD_au8CMD17 := SD_au8CMD17_initial;
     SD_au8ACMD41 := SD_au8ACMD41_initial;
     u8Retries := SD_CMD_RETRIES |}.

Definition booted : State := fst (exec SdCardInitialize power_on).

(** What can happen to the module state after initialisation: the
    scheduler runs the state machine, the bus driver stores received bytes
    in the receive buffer and moves the write pointer it was given in
    [SD_sSsp0Config], or a client calls one of the public functions. *)
Inductive Action :=
| Tick (e : Env)
| Receive (buffer : list Z) (next_byte : Z)
| CallSdIsCardInserted (e : Env)
| CallSdGetStatus
| CallSdReadBlock (u32SectorAddress_ : Z)
| CallSdWriteBlock (u32BlockAddress_ : Z)
| CallSdGetReadData (destination : list Z).

Definition act (a : Action) (s : State) : option State :=
  match a with
  | Tick e =>
      match tick e s with
      | Some (s', _) => Some s'
      | None => None
      end
  | Receive buffer next_byte =>
      if Nat.eqb (length buffer) (length (SD_au8RxBuffer s)) then
        Some (set_SD_pu8RxBufferNextByte next_byte
                (set_SD_au8RxBuffer buffer s))
      else None
  | CallSdIsCardInserted e => Some (fst (exec (SdIsCardInserted e) s))
  | CallSdGetStatus => Some (fst (exec SdGetStatus s))
  | CallSdReadBlock a => Some (fst (exec (SdReadBlock a) s))
  | CallSdWriteBlock a => Some (fst (exec (SdWriteBlock a) s))
  | CallSdGetReadData d => Some (fst (exec (SdGetReadData d) s))
  end.

Fixpoint run (l : list Action) (s : State) : option State :=
  match l with
  | [] => Some s
  | a :: l' =>
      match act a s with
      | Some s' => run l' s'
      | None => None
      end
  end.

Inductive reachable : State -> Prop :=
| reachable_booted : reachable booted
| reachable_act a s s' : reachable s -> act a s = Some s' -> reachable s'.

End Runs.

(** ** A header to run the driver with *)

(** Modelled from the spec: values for the constants of the header that
    sdcard.c includes, and the timer predicate [IsTimeUp], neither of
    which is part of the sources at hand.  The spec gives a command frame
    seven bytes with its trailing dummy byte and a block 512 bytes, and
    describes a time-out as a reference time plus a duration: [IsTimeUp]
    holds when the time elapsed since the saved time, modulo 2^32, is at
    least the period.  The protocol constants are those of the SD
    specification's SPI mode (R1 idle is 0x01, ready is 0x00, the
    start-block token is 0xFE, CMD8 carries voltage range 0x01 and check
    pattern 0xAA, the capacity bit is bit 6 of the first OCR byte); buffer
    size, retry count and periods are examples.  The general theorems do
    not depend on any of these values; they serve to run the driver on
    concrete inputs. *)
Definition example_header : Header := {|
  SDCARD_RX_BUFFER_SIZE := 1024;
  SD_CMD_SIZE := 7;
  SD_WAKEUP_BYTES := 10;
  SD_CMD_RETRIES := 10;
  SD_SPI_WAIT_TIME_MS := 200;
  SD_WAIT_TIME := 100;
  SD_READ_TOKEN_MS := 500;
  SD_SECTOR_READ_TIMEOUT_MS := 1000;
  _SD_CARD_INSERTED := 0x01;
  _SD_TYPE_SD1 := 0x02;
  _SD_TYPE_SD2 := 0x04;
  _SD_CARD_HC := 0x08;
  SD_CLEAR_CARD_TYPE_BITS := 0xFFFFFFF1;
  SD_STATUS_IDLE := 0x01;
  SD_STATUS_READY := 0x00;
  SD_VHS_VALUE := 0x01;
  SD_CHECK_PATTERN := 0xAA;
  _SD_OCR_CCS_BIT := 0x40;
  TOKEN_START_BLOCK := 0xFE;
  SD_HOST_CMD := 0x40;
  SD_CMD0 := 0;
  SD_CMD8 := 8;
  SD_CMD16 := 16;
  SD_CMD17 := 17;
  SD_CMD55 := 55;
  SD_CMD58 := 58;
  SD_ACMD41 := 41;
  SD_CMD0_CRC := 0x95;
  SD_CMD8_CRC := 0x87;
  SD_NO_CRC := 0xFF;
  SSP_DUMMY_BYTE := 0xFF;
  SD_ERROR_TIMEOUT := 1;
  SD_ERROR_CARD_VOLTAGE := 2;
  SD_ERROR_BAD_RESPONSE := 3;
  SD_ERROR_NO_TOKEN := 4;
  SD_ERROR_NO_SD_TOKEN := 5;
  IsTimeUp := fun now saved period => period <=? u32 (now - saved)
|}.

(** ** Notions used to state the properties *)

Section Notions.
Context {hdr : Header}.

(** The flag bits are what their names say: distinct bits of a 32-bit
    word, and [SD_CLEAR_CARD_TYPE_BITS] clears the card-type bits. *)
Record flag_bits_ok : Prop := {
  hc_range : 0 <= _SD_CARD_HC < u32_modulus;
  sd2_range : 0 <= _SD_TYPE_SD2 < u32_modulus;
  hc_nonzero : _SD_CARD_HC <> 0;
  clear_hc : Z.land SD_CLEAR_CARD_TYPE_BITS _SD_CARD_HC = 0;
  clear_sd2 : Z.land SD_CLEAR_CARD_TYPE_BITS _SD_TYPE_SD2 = 0;
  inserted_hc : Z.land _SD_CARD_INSERTED _SD_CARD_HC = 0;
  inserted_sd2 : Z.land _SD_CARD_INSERTED _SD_TYPE_SD2 = 0;
  sd1_hc : Z.land _SD_TYPE_SD1 _SD_CARD_HC = 0;
  sd1_sd2 : Z.land _SD_TYPE_SD1 _SD_TYPE_SD2 = 0;
  sd2_hc : Z.land _SD_TYPE_SD2 _SD_CARD_HC = 0
}.

(** The period a wait state passes to [IsTimeUp], for the six states that
    watch [SD_u32Timeout]. *)
Definition timeout_period (f : fn.t) : option Z :=
  match f with
  | fn.SdCardWaitReady | fn.SdCardReadCMD8 | fn.SdCardReadCMD58 =>
      Some SD_SPI_WAIT_TIME_MS
  | fn.SdCardWaitCommand => Some SD_WAIT_TIME
  | fn.SdCardWaitStartToken => Some SD_READ_TOKEN_MS
  | fn.SdCardDataTransfer => Some SD_SECTOR_READ_TIMEOUT_MS
  | _ => None
  end.

(** The byte at which [SdCardReadCMD8] looks for the voltage range, and
    the one at which it looks for the check pattern. *)
Definition cmd8_voltage_byte (s : State) : Z :=
  rd (SD_au8RxBuffer s)
     (advance_loop (Z.to_nat 2) (SD_pu8RxBufferParser s)).
Definition cmd8_pattern_byte (s : State) : Z :=
  rd (SD_au8RxBuffer s)
     (advance_loop (Z.to_nat 1)
        (advance_loop (Z.to_nat 2) (SD_pu8RxBufferParser s))).

(** The passes in which a wait state finishes its wait by queueing the
    next command, which stores a new reference time in [SD_u32Timeout]
    before the time-out is looked at. *)
Definition restarts_timeout (f : fn.t) (e : Env) (s : State) : bool :=
  match f with
  | fn.SdCardWaitReady =>
      QueryMessageStatus_COMPLETE e && (parser_byte s =? 0xFF)
  | fn.SdCardReadCMD8 =>
      QueryMessageStatus_COMPLETE e
      && (cmd8_voltage_byte s =? SD_VHS_VALUE)
      && (cmd8_pattern_byte s =? SD_CHECK_PATTERN)
  | fn.SdCardReadCMD58 =>
      QueryMessageStatus_COMPLETE e
      && (Z.land (parser_byte s) _SD_OCR_CCS_BIT =? 0)
  | _ => false
  end.

(** A pass of [SdCardReadCMD8] that finds its read complete and whose two
    tests succeed on the bytes it looks at.  These need not be the bytes
    of the echo: see [cmd8_echo] below. *)
Definition SdCardReadCMD8_accepts (a : Action) (s : State) : bool :=
  match a, G_SdCardStateMachine s with
  | Tick e, Some fn.SdCardReadCMD8 =>
      QueryMessageStatus_COMPLETE e
      && (cmd8_voltage_byte s =? SD_VHS_VALUE)
      && (cmd8_pattern_byte s =? SD_CHECK_PATTERN)
  | _, _ => false
  end.

(** A pass of [SdCardReadCMD8] that finds its read complete. *)
Definition SdCardReadCMD8_completes (a : Action) (s : State) : bool :=
  match a, G_SdCardStateMachine s with
  | Tick e, Some fn.SdCardReadCMD8 => QueryMessageStatus_COMPLETE e
  | _, _ => false
  end.


(** The states a run goes through, each with the action taken in it. *)
Fixpoint history (l : list Action) (s : State) : list (State * Action) :=
  match l with
  | [] => []
  | a :: l' =>
      (s, a) :: match act a s with
                | Some s' => history l' s'
                | None => []
                end
  end.

Definition happened (ev : Action -> State -> bool) (l : list Action)
    (s : State) : bool :=
  existsb (fun sa => ev (snd sa) (fst sa)) (history l s).

(** The CMD8 echo of a run: the voltage byte and the check-pattern byte
    of the four bytes read after R1, which are the two bytes that the
    first pass of [SdCardReadCMD8] to find the read complete compares.
    (When that pass finds the voltage code with another check pattern,
    the state machine stays in [SdCardReadCMD8] with the parse pointer
    four places on, and a later pass compares bytes that follow the
    echo in the receive buffer.) *)
Definition cmd8_echo (l : list Action) (s : State) : option (Z * Z) :=
  match
    find (fun sa => SdCardReadCMD8_completes (snd sa) (fst sa))
      (history l s)
  with
  | Some (s1, _) => Some (cmd8_voltage_byte s1, cmd8_pattern_byte s1)
  | None => None
  end.


(** The echo carries the expected voltage code with another check
    pattern, the case for which [SdCardReadCMD8] has no branch. *)
Definition cmd8_echo_pattern_differs (l : list Action) (s : State)
    : bool :=
  match cmd8_echo l s with
  | Some (v, p) => (v =? SD_VHS_VALUE) && negb (p =? SD_CHECK_PATTERN)
  | None => false
  end.

(** One detection attempt: the state machine is neither in
    [SdCardReadyIdle] nor in [SdError] before any of the actions. *)
Definition detecting (l : list Action) (s : State) : Prop :=
  forall s1 a, In (s1, a) (history l s) ->
    G_SdCardStateMachine s1 <> Some fn.SdCardReadyIdle /\
    G_SdCardStateMachine s1 <> Some fn.SdError.

(** [SdCardReadyIdle] with the part for [SD_WRITING] taken out. *)
Definition SdCardReadyIdle_reading_only (e : Env) : M unit :=
  inserted <- SdIsCardInserted e ;;
  (if negb inserted then
     set_SD_CardStatusLed_eBlinkRate ::= LED_OFF ;;
     LedRequest ;;
     s <- get ;;
     set_SD_u32Flags ::= Z.land (SD_u32Flags s) SD_CLEAR_CARD_TYPE_BITS ;;
     set_SD_u32Timeout ::= G_u32SystemTime1ms e ;;
     set_SD_WaitReturnState ::= Some fn.SdIdleNoCard ;;
     set_G_SdCardStateMachine ::= Some fn.SdCardWaitSSP
   else skip) ;;
  s <- get ;;
  if SdCardStateType_eqb (SD_CardState s) SD_READING then
    ssp <- SspRequest e ;;
    set_SD_Ssp ::= ssp ;;
    if ssp =? 0 then
      DebugPrintf SD_au8SspRequestFailed ;;
      set_SD_u32Timeout ::= G_u32SystemTime1ms e ;;
      set_SD_WaitReturnState ::= Some fn.SdCardReadyIdle ;;
      set_G_SdCardStateMachine ::= Some fn.SdCardWaitSSP
    else
      s1 <- get ;;
      set_SD_au8CMD17 ::=
        wr (SD_au8CMD17 s1) 1 (u8 (Z.shiftr (SD_u32Address s1) 24)) ;;
      s2 <- get ;;
      set_SD_au8CMD17 ::=
        wr (SD_au8CMD17 s2) 2 (u8 (Z.shiftr (SD_u32Address s2) 16)) ;;
      s3 <- get ;;
      set_SD_au8CMD17 ::=
        wr (SD_au8CMD17 s3) 3 (u8 (Z.shiftr (SD_u32Address s3) 8)) ;;
      s4 <- get ;;
      set_SD_au8CMD17 ::= wr (SD_au8CMD17 s4) 4 (u8 (SD_u32Address s4)) ;;
      SdCommand e arr.SD_au8CMD17 ;;
      set_SD_WaitReturnState ::= Some fn.SdCardResponseCMD17
  else skip.

(** While a block read is under way, the state to return to after a
    wait is [SdCardResponseCMD17]; and the states in which the block read
    waits for the card are never stored as the state to return to. *)
Definition returns_to_SdCardResponseCMD17 (s : State) : Prop :=
  SD_WaitReturnState s <> Some fn.SdCardWaitStartToken /\
  SD_WaitReturnState s <> Some fn.SdFailedDataTransfer /\
  match G_SdCardStateMachine s with
  | Some fn.SdCardResponseCMD17
  | Some fn.SdCardWaitStartToken
  | Some fn.SdFailedDataTransfer =>
      SD_WaitReturnState s = Some fn.SdCardResponseCMD17
  | _ => True
  end.



(** [detecting], as a test. *)
Definition detecting_test (l : list Action) (s : State) : bool :=
  forallb
    (fun sa =>
       match G_SdCardStateMachine (fst sa) with
       | Some fn.SdCardReadyIdle | Some fn.SdError => false
       | _ => true
       end)
    (history l s).

(** The 32-bit value whose bytes, most significant first, are
    [b1 b2 b3 b4]. *)
Definition big_endian (b1 b2 b3 b4 : Z) : Z :=
  b1 * 2 ^ 24 + b2 * 2 ^ 16 + b3 * 2 ^ 8 + b4.

End Notions.

(** ** Concrete inputs *)

(** A pass with the card in its socket, the bus granted with handle 1,
    transfers accepted with token 7. *)
Definition at_time (now : Z) (done : bool) : Env :=
  {| P0_22_SD_DET := false;
     SspRequest_result := 1;
     Ssp_token := 7;
     QueryMessageStatus_COMPLETE := done;
     G_u32SystemTime1ms := now |}.

(** The bus driver has filled the receive buffer with the byte [v]. *)
Definition all_bytes (v : Z) : Action := Receive (repeat v 1024) 0.

(** One command exchange: the card answers 0xFF to the poll, the frame is
    written, the card answers [r1]. *)
Definition exchange (now r1 : Z) : list Action :=
  [all_bytes 0xFF; Tick (at_time now true);
   all_bytes r1; Tick (at_time now true)].

(** A version-1 card is detected: CMD0 -> idle, CMD8 -> illegal command,
    CMD55 -> idle, ACMD41 -> ready, CMD16 -> ready. *)
Definition detect_v1 : list Action :=
  [Tick (at_time 0 true); Tick (at_time 0 true)] ++ exchange 0 0x01 ++
  [Tick (at_time 0 true)] ++ exchange 0 0x05 ++
  [Tick (at_time 0 true)] ++ exchange 0 0x01 ++
  [Tick (at_time 0 true)] ++ exchange 0 0x00 ++
  [Tick (at_time 0 true)] ++ exchange 0 0x00 ++
  [Tick (at_time 0 true)].

(** After that a client asks for sector 100 and the card answers CMD17
    with "illegal command"; the state machine is then about to run
    [SdFailedDataTransfer]. *)
Definition read_rejected : list Action :=
  detect_v1 ++ [CallSdReadBlock 100; Tick (at_time 0 true)] ++
  exchange 0 0x04 ++ [Tick (at_time 0 true)].

(** A version-2 high-capacity card is detected: CMD0 -> idle, CMD8 ->
    idle with echo 0x01 0xAA, CMD55 -> idle, ACMD41 -> ready, CMD58 ->
    ready with an OCR whose first byte is 0xC0. *)
Definition detect_v2_high_capacity : list Action :=
  [Tick (at_time 0 true); Tick (at_time 0 true)] ++ exchange 0 0x01 ++
  [Tick (at_time 0 true)] ++ exchange 0 0x01 ++
  [Tick (at_time 0 true);
   Receive (wr (repeat 0x01 1024) 29 0xAA) 0;
   Tick (at_time 0 true)] ++ exchange 0 0x01 ++
  [Tick (at_time 0 true)] ++ exchange 0 0x00 ++
  [Tick (at_time 0 true)] ++ exchange 0 0x00 ++
  [Tick (at_time 0 true); all_bytes 0xC0; Tick (at_time 0 true)].


(** A version-2 card whose CMD8 echo carries 0x01 0x55, the voltage code
    with a wrong check pattern, while the receive buffer holds 0x01 0xAA
    four places on (past the write pointer, which is at 30): the second
    pass of [SdCardReadCMD8] compares those.  The rest is as for
    [detect_v2_high_capacity]. *)
Definition detect_v2_wrong_pattern : list Action :=
  [Tick (at_time 0 true); Tick (at_time 0 true)] ++ exchange 0 0x01 ++
  [Tick (at_time 0 true)] ++ exchange 0 0x01 ++
  [Tick (at_time 0 true);
   Receive (wr (wr (repeat 0x01 1024) 29 0x55) 33 0xAA) 30;
   Tick (at_time 0 true); Tick (at_time 0 true)] ++ exchange 0 0x01 ++
  [Tick (at_time 0 true)] ++ exchange 0 0x00 ++
  [Tick (at_time 0 true)] ++ exchange 0 0x00 ++
  [Tick (at_time 0 true); all_bytes 0xC0; Tick (at_time 0 true)].

(** [SdFailedDataTransfer] runs, and [SdCardWaitSSP] runs once the wait
    is over. *)
Definition read_rejected_then_wait : list Action :=
  read_rejected ++ [Tick (at_time 0 true); Tick (at_time 1000 true)].

(** A version-2 card is taken as far as the first ACMD41 (CMD8 -> idle,
    echo 0x01 0xAA, CMD55 -> idle), then stops answering: the next poll
    times out, [SdError] and [SdCardWaitSSP] run. *)
Definition v2_card_until_ACMD41 : list Action :=
  [Tick (at_time 0 true); Tick (at_time 0 true)] ++ exchange 0 0x01 ++
  [Tick (at_time 0 true)] ++ exchange 0 0x01 ++
  [Tick (at_time 0 true);
   Receive (wr (repeat 0x01 1024) 29 0xAA) 0;
   Tick (at_time 0 true)] ++ exchange 0 0x01 ++
  [Tick (at_time 0 true)].

Definition card_lost : list Action :=
  [Tick (at_time 1000 false); Tick (at_time 1000 false);
   Tick (at_time 2000 false)].

(** Then a version-1 card is detected as far as ACMD41, and answers 0xFF
    to the poll that precedes the frame. *)
Definition v1_card_until_ACMD41 : list Action :=
  [Tick (at_time 2000 true); Tick (at_time 2000 true)] ++
  exchange 2000 0x01 ++
  [Tick (at_time 2000 true)] ++ exchange 2000 0x05 ++
  [Tick (at_time 2000 true)] ++ exchange 2000 0x01 ++
  [Tick (at_time 2000 true); all_bytes 0xFF].

Definition v2_card_then_v1_card : list Action :=
  v2_card_until_ACMD41 ++ card_lost ++ v1_card_until_ACMD41.

(** The state after the actions [l], with the example header, counted
    from the end of [SdCardInitialize]. *)
Definition example_after (l : list Action) : State :=
  match run (hdr := example_header) l (booted (hdr := example_header)) with
  | Some s => s
  | None => booted (hdr := example_header)
  end.

(** A state in [SdCardWaitReady] whose poll was queued at time 0, with the
    receive buffer full of the byte [v]. *)
Definition waiting_ready (v : Z) : State :=
  {| G_SdCardStateMachine := Some fn.SdCardWaitReady;
     SD_u32Flags := 1;
     SD_CardState := SD_NO_CARD;
     SD_u8ErrorCode := 0;
     SD_WaitReturnState := Some fn.SdCardResponseCMD0;
     SD_NextCommand := Some arr.SD_au8CMD0;
     SD_CardStatusLed_eBlinkRate := LED_1HZ;
     SD_Ssp := 1;
     SD_au8RxBuffer := repeat v 1024;
     SD_pu8RxBufferNextByte := 11;
     SD_pu8RxBufferParser := 10;
     SD_u32Timeout := 0;
     SD_u32CurrentMsgToken := 7;
     SD_u32Address := 0;
     SD_au8CMD17 := [0x51; 0; 0; 0; 0; 0xFF; 0xFF];
     SD_au8ACMD41 := [0x69; 0; 0; 0; 0; 0xFF; 0xFF];
     u8Retries := 10 |}.

(** ** Further notions *)

Section FurtherNotions.
Context {hdr : Header}.

(** The bus driver has stored bytes: the receive buffer reads [buffer]
    and the write pointer is at [next_byte]. *)
Definition received (buffer : list Z) (next_byte : Z) (s : State) : State :=
  set_SD_pu8RxBufferNextByte next_byte (set_SD_au8RxBuffer buffer s).

(** Both pointers into the receive buffer point to one of its elements. *)
Definition pointers_in_buffer (s : State) : Prop :=
  0 <= SD_pu8RxBufferParser s < SDCARD_RX_BUFFER_SIZE /\
  0 <= SD_pu8RxBufferNextByte s < SDCARD_RX_BUFFER_SIZE.

(** The bus driver, for its part, leaves the write pointer inside the
    buffer. *)
Definition keeps_write_pointer_inside (a : Action) : Prop :=
  match a with
  | Receive _ next_byte => 0 <= next_byte < SDCARD_RX_BUFFER_SIZE
  | _ => True
  end.

(** The two command arrays that are written at run time still are frames
    of their commands: CMD17 has its opcode, CRC and dummy byte, ACMD41 is
    as initialised but possibly for [BIT6] in its first argument byte. *)
Definition frames_intact (s : State) : Prop :=
  (exists b1 b2 b3 b4,
     SD_au8CMD17 s =
       [Z.lor SD_HOST_CMD SD_CMD17; b1; b2; b3; b4; SD_NO_CRC;
        SSP_DUMMY_BYTE]) /\
  (SD_au8ACMD41 s = SD_au8ACMD41_initial \/
   SD_au8ACMD41 s =
     [Z.lor SD_HOST_CMD SD_ACMD41; BIT6; 0; 0; 0; SD_NO_CRC;
      SSP_DUMMY_BYTE]).

(** The state machine can be called, and so can the state it will return
    to after a wait. *)
Definition callable (s : State) : Prop :=
  G_SdCardStateMachine s <> None /\
  match G_SdCardStateMachine s with
  | Some fn.SdCardWaitSSP | Some fn.SdCardWaitCommand
  | Some fn.SdCardWaitReady | Some fn.SdCardResponseCMD17
  | Some fn.SdCardWaitStartToken | Some fn.SdFailedDataTransfer =>
      SD_WaitReturnState s <> None
  | _ => True
  end.

(** The state functions that do nothing but look whether a transfer has
    completed and whether time is up. *)
Definition polls_a_transfer (f : fn.t) : bool :=
  match f with
  | fn.SdCardDummies | fn.SdCardWaitReady | fn.SdCardWaitCommand
  | fn.SdCardReadCMD8 | fn.SdCardReadCMD58 | fn.SdCardWaitStartToken
  | fn.SdCardDataTransfer => true
  | _ => false
  end.

(** Consecutive passes of [SdCardWaitCommand], each one finding its
    transfer complete and each one leaving the state machine in
    [SdCardWaitCommand]; the bus driver may store bytes before each. *)
Fixpoint keeps_waiting_for_command (passes : list (list Z * Z * Env))
    (s : State) : Prop :=
  match passes with
  | [] => True
  | (buffer, next_byte, e) :: rest =>
      let s' :=
        fst (exec (SdCardWaitCommand e) (received buffer next_byte s)) in
      QueryMessageStatus_COMPLETE e = true /\
      G_SdCardStateMachine s' = Some fn.SdCardWaitCommand /\
      keeps_waiting_for_command rest s'
  end.

(** [flag_bits_ok], and the same for the two bits it leaves out. *)
Record type_flags_ok : Prop := {
  flags_ok : flag_bits_ok;
  sd1_range : 0 <= _SD_TYPE_SD1 < u32_modulus;
  sd1_nonzero : _SD_TYPE_SD1 <> 0;
  sd2_nonzero : _SD_TYPE_SD2 <> 0;
  clear_sd1 : Z.land SD_CLEAR_CARD_TYPE_BITS _SD_TYPE_SD1 = 0;
  inserted_sd1 : Z.land _SD_CARD_INSERTED _SD_TYPE_SD1 = 0
}.

(** A pass of [SdCardResponseCMD16] that finds the card ready. *)
Definition cmd16_acknowledged (a : Action) (s : State) : bool :=
  match a, G_SdCardStateMachine s with
  | Tick e, Some fn.SdCardResponseCMD16 =>
      parser_byte s =? SD_STATUS_READY
  | _, _ => false
  end.

(** The card has been marked as of exactly one version. *)
Definition one_version (s : State) : Prop :=
  Z.land (SD_u32Flags s) _SD_TYPE_SD1 <> 0 /\
  Z.land (SD_u32Flags s) _SD_TYPE_SD2 = 0
  \/
  Z.land (SD_u32Flags s) _SD_TYPE_SD1 = 0 /\
  Z.land (SD_u32Flags s) _SD_TYPE_SD2 <> 0.

(** What is known of the flags before the state function [f] runs during
    a detection attempt; [k] says whether CMD16 has been acknowledged. *)
Definition flags_before (f : fn.t) (s : State) (k : bool) : Prop :=
  Z.land (SD_u32Flags s) _SD_CARD_HC = 0 /\ k = false /\
  match f with
  | fn.SdCardDummies | fn.SdCardResponseCMD0 | fn.SdCardResponseCMD8 =>
      Z.land (SD_u32Flags s) _SD_TYPE_SD1 = 0 /\
      Z.land (SD_u32Flags s) _SD_TYPE_SD2 = 0
  | fn.SdCardReadCMD8 | fn.SdCardResponseCMD58 | fn.SdCardReadCMD58 =>
      Z.land (SD_u32Flags s) _SD_TYPE_SD1 = 0 /\
      Z.land (SD_u32Flags s) _SD_TYPE_SD2 <> 0
  | fn.SdCardACMD41 | fn.SdCardResponseACMD41 =>
      Z.land (SD_u32Flags s) _SD_TYPE_SD1 = 0
  | fn.SdCardResponseCMD16 => one_version s
  | _ => False
  end.

Definition outcome_invariant (s : State) (k : bool) : Prop :=
  match G_SdCardStateMachine s with
  | Some fn.SdIdleNoCard => k = false
  | Some fn.SdCardWaitSSP =>
      SD_WaitReturnState s = Some fn.SdIdleNoCard /\ k = false
  | Some fn.SdCardWaitReady | Some fn.SdCardWaitCommand =>
      match SD_WaitReturnState s with
      | Some f => flags_before f s k
      | None => False
      end
  | Some fn.SdCardReadyIdle =>
      SD_CardState s = SD_IDLE /\
      SD_CardStatusLed_eBlinkRate s = LED_ON /\
      one_version s /\
      (Z.land (SD_u32Flags s) _SD_CARD_HC <> 0 ->
       Z.land (SD_u32Flags s) _SD_TYPE_SD2 <> 0) /\
      (k = true <-> Z.land (SD_u32Flags s) _SD_CARD_HC = 0)
  | Some fn.SdError => True
  | Some f => flags_before f s k
  | None => False
  end.

(** The same pass, but for what the bus driver answers to a request to
    read. *)
Definition with_token (t : Z) (e : Env) : Env :=
  {| P0_22_SD_DET := P0_22_SD_DET e;
     SspRequest_result := SspRequest_result e;
     Ssp_token := t;
     QueryMessageStatus_COMPLETE := QueryMessageStatus_COMPLETE e;
     G_u32SystemTime1ms := G_u32SystemTime1ms e |}.

(** A card that keeps answering "idle" to ACMD41.  One round, with the
    state machine about to run [SdCardACMD41]: the answer to CMD55 is
    idle; ACMD41 is sent (0xFF to the poll, then the frame) and answered
    idle; CMD55 is sent again in the same way.  [len] is the number of
    elements of the receive buffer, which the bus driver fills. *)
Definition polling_round (e : Env) (len : nat) : list Action :=
  [Receive (repeat SD_STATUS_IDLE len) 0; Tick e;
   Receive (repeat 0xFF len) 0; Tick e;
   Receive (repeat SD_STATUS_IDLE len) 0; Tick e;
   Tick e;
   Receive (repeat 0xFF len) 0; Tick e;
   Receive (repeat SD_STATUS_IDLE len) 0; Tick e].

Fixpoint polling_rounds (n : nat) (e : Env) (len : nat) : list Action :=
  match n with
  | O => []
  | S n' => polling_round e len ++ polling_rounds n' e len
  end.

(** The state machine is about to run [SdCardACMD41], with the parse
    pointer inside a receive buffer of [len] elements. *)
Definition about_to_send_ACMD41 (len : nat) (s : State) : Prop :=
  G_SdCardStateMachine s = Some fn.SdCardACMD41 /\
  length (SD_au8RxBuffer s) = len /\
  Z.of_nat len = SDCARD_RX_BUFFER_SIZE /\
  0 <= SD_pu8RxBufferParser s < SDCARD_RX_BUFFER_SIZE.

End FurtherNotions.


(** ** Further concrete inputs *)

(** A pass with the card in its socket in which the bus is not granted. *)
Definition bus_refused (now : Z) : Env :=
  {| P0_22_SD_DET := false;
     SspRequest_result := 0;
     Ssp_token := 7;
     QueryMessageStatus_COMPLETE := true;
     G_u32SystemTime1ms := now |}.

(** A pass with the socket empty. *)
Definition card_absent (now : Z) : Env :=
  {| P0_22_SD_DET := true;
     SspRequest_result := 1;
     Ssp_token := 7;
     QueryMessageStatus_COMPLETE := true;
     G_u32SystemTime1ms := now |}.

(** A version-1 card is taken as far as its answer to the first CMD55:
    CMD0 -> idle, CMD8 -> illegal command, CMD55 -> idle. *)
Definition card_answers_CMD55 : list Action :=
  [Tick (at_time 0 true); Tick (at_time 0 true)] ++ exchange 0 0x01 ++
  [Tick (at_time 0 true)] ++ exchange 0 0x05 ++
  [Tick (at_time 0 true)] ++ exchange 0 0x01.

(** The version-1 card is detected and a client asks for sector 100. *)
Definition read_requested : list Action :=
  detect_v1 ++ [CallSdReadBlock 100].

(** A poll of [SdCardWaitCommand] that finds 0xFF in the receive
    buffer. *)
Definition no_response_yet : list Z * Z * Env :=
  (repeat 0xFF 1024, 0, at_time 0 true).
(** ** Proof automation *)

Ltac destruct_State s :=
  let sm := fresh "sm" in let flags := fresh "flags" in
  let status := fresh "status" in let err := fresh "err" in
  let wret := fresh "wret" in let ncmd := fresh "ncmd" in
  let led := fresh "led" in let ssp := fresh "ssp" in
  let buf := fresh "buf" in let nb := fresh "nb" in
  let pp := fresh "pp" in let tmo := fresh "tmo" in
  let tok := fresh "tok" in let addr := fresh "addr" in
  let c17 := fresh "c17" in let a41 := fresh "a41" in
  let retr := fresh "retr" in
  destruct s as [sm flags status err wret ncmd led ssp buf nb pp tmo tok
                 addr c17 a41 retr].

Ltac destruct_Env e :=
  let det := fresh "det" in let req := fresh "req" in
  let etok := fresh "etok" in let done := fresh "done" in
  let now := fresh "now" in
  destruct e as [det req etok done now].

Ltac unfold_driver :=
  cbv beta iota zeta delta
    [tick state_function exec bind ret get modify call skip fst snd app
     negb andb orb SdCardStateType_eqb
     SdIsCardInserted SdGetStatus SdReadBlock SdWriteBlock SdGetReadData
     SdCardInitialize SdCommand CheckTimeout AdvanceSD_pu8RxBufferParser
     FlushSdRxBuffer SspDeAssertCS SspAssertCS SspRelease SspReadByte
     SspReadData SspWriteData SspRequest LedRequest DebugPrintf parser_byte
     SdIdleNoCard SdCardDummies SdCardResponseCMD0 SdCardResponseCMD8
     SdCardReadCMD8 SdCardACMD41 SdCardResponseACMD41 SdCardResponseCMD58
     SdCardResponseCMD16 SdCardReadCMD58 SdCardWaitReady SdCardWaitCommand
     SdCardWaitSSP SdCardReadyIdle SdCardResponseCMD17 SdCardWaitStartToken
     SdCardDataTransfer SdFailedDataTransfer SdError
     set_G_SdCardStateMachine set_SD_u32Flags set_SD_CardState
     set_SD_u8ErrorCode set_SD_WaitReturnState set_SD_NextCommand
     set_SD_CardStatusLed_eBlinkRate set_SD_Ssp set_SD_au8RxBuffer
     set_SD_pu8RxBufferNextByte set_SD_pu8RxBufferParser set_SD_u32Timeout
     set_SD_u32CurrentMsgToken set_SD_u32Address set_SD_au8CMD17
     set_SD_au8ACMD41 set_u8Retries
     G_SdCardStateMachine SD_u32Flags SD_CardState SD_u8ErrorCode
     SD_WaitReturnState SD_NextCommand SD_CardStatusLed_eBlinkRate SD_Ssp
     SD_au8RxBuffer SD_pu8RxBufferNextByte SD_pu8RxBufferParser
     SD_u32Timeout SD_u32CurrentMsgToken SD_u32Address SD_au8CMD17
     SD_au8ACMD41 u8Retries
     P0_22_SD_DET SspRequest_result Ssp_token QueryMessageStatus_COMPLETE
     G_u32SystemTime1ms].

Ltac unfold_driver_in H :=
  cbv beta iota zeta delta
    [tick state_function exec bind ret get modify call skip fst snd app
     negb andb orb SdCardStateType_eqb
     SdIsCardInserted SdGetStatus SdReadBlock SdWriteBlock SdGetReadData
     SdCardInitialize SdCommand CheckTimeout AdvanceSD_pu8RxBufferParser
     FlushSdRxBuffer SspDeAssertCS SspAssertCS SspRelease SspReadByte
     SspReadData SspWriteData SspRequest LedRequest DebugPrintf parser_byte
     SdIdleNoCard SdCardDummies SdCardResponseCMD0 SdCardResponseCMD8
     SdCardReadCMD8 SdCardACMD41 SdCardResponseACMD41 SdCardResponseCMD58
     SdCardResponseCMD16 SdCardReadCMD58 SdCardWaitReady SdCardWaitCommand
     SdCardWaitSSP SdCardReadyIdle SdCardResponseCMD17 SdCardWaitStartToken
     SdCardDataTransfer SdFailedDataTransfer SdError
     set_G_SdCardStateMachine set_SD_u32Flags set_SD_CardState
     set_SD_u8ErrorCode set_SD_WaitReturnState set_SD_NextCommand
     set_SD_CardStatusLed_eBlinkRate set_SD_Ssp set_SD_au8RxBuffer
     set_SD_pu8RxBufferNextByte set_SD_pu8RxBufferParser set_SD_u32Timeout
     set_SD_u32CurrentMsgToken set_SD_u32Address set_SD_au8CMD17
     set_SD_au8ACMD41 set_u8Retries
     G_SdCardStateMachine SD_u32Flags SD_CardState SD_u8ErrorCode
     SD_WaitReturnState SD_NextCommand SD_CardStatusLed_eBlinkRate SD_Ssp
     SD_au8RxBuffer SD_pu8RxBufferNextByte SD_pu8RxBufferParser
     SD_u32Timeout SD_u32CurrentMsgToken SD_u32Address SD_au8CMD17
     SD_au8ACMD41 u8Retries
     P0_22_SD_DET SspRequest_result Ssp_token QueryMessageStatus_COMPLETE
     G_u32SystemTime1ms] in H.

(** Case analysis on the innermost test of a condition. *)
Ltac split_test c :=
  lazymatch c with
  | (if ?d then _ else _) => split_test d
  | negb ?d => split_test d
  | andb ?a _ => split_test a
  | orb ?a _ => split_test a
  | _ => let E := fresh "E" in destruct c eqn:E
  end.

Ltac driver_cases :=
  unfold_driver;
  repeat (match goal with
          | |- context [match ?x with _ => _ end] => is_var x; destruct x
          | |- context [if ?c then _ else _] => split_test c
          end; unfold_driver).

(** ** Properties of the driver *)

Section Properties.
Context {hdr : Header}.

(** *** The public functions *)

(** C5.  [SdReadBlock] returns TRUE exactly when the status is [SD_IDLE]
    beforehand, and then the status becomes [SD_READING]; with any other
    status it returns FALSE and the module state is what it was.  It makes
    no call to another driver. *)
Theorem SdReadBlock_accepted_iff_idle (a : Z) (s : State) :
  let '(r, s', c) := SdReadBlock a s in
  c = [] /\
  (r = true <-> SD_CardState s = SD_IDLE) /\
  (r = true -> SD_CardState s' = SD_READING) /\
  (r = false -> s' = s).
Proof.
  destruct_State s. driver_cases; repeat split; intros; congruence.
Qed.

Lemma length_wr_nat (a : list Z) :
  forall i v, length (wr_nat a i v) = length a.
Proof.
  induction a as [|h t IH]; intros [|i] v; simpl; auto.
Qed.

Lemma length_wr (a : list Z) (i v : Z) : length (wr a i v) = length a.
Proof.
  unfold wr. destruct (i <? 0); auto using length_wr_nat.
Qed.

Lemma nth_wr_nat_same (a : list Z) : forall i v,
  (i < length a)%nat -> nth i (wr_nat a i v) 0 = v.
Proof.
  induction a as [|h t IH]; intros [|i] v Hi; simpl in *; try lia; auto.
  apply IH. lia.
Qed.

Lemma nth_wr_nat_other (a : list Z) : forall i j v,
  i <> j -> nth j (wr_nat a i v) 0 = nth j a 0.
Proof.
  induction a as [|h t IH]; intros [|i] [|j] v Hij; simpl; auto; try lia.
Qed.

Lemma rd_wr_same (a : list Z) (i v : Z) :
  0 <= i < Z.of_nat (length a) -> rd (wr a i v) i = v.
Proof.
  intros Hi. unfold rd, wr.
  destruct (i <? 0) eqn:E; [apply Z.ltb_lt in E; lia|].
  apply nth_wr_nat_same. lia.
Qed.

Lemma rd_wr_other (a : list Z) (i j v : Z) :
  0 <= j -> i <> j -> rd (wr a i v) j = rd a j.
Proof.
  intros Hj Hij. unfold rd, wr.
  destruct (i <? 0) eqn:E; auto.
  apply Z.ltb_ge in E. apply nth_wr_nat_other. lia.
Qed.

(** After [n] rounds that start with counter [i], the destination holds
    the source bytes at [i .. i+n-1] and its old bytes elsewhere. *)
Lemma copy_loop_spec (n : nat) : forall i src dst,
  0 <= i ->
  length (copy_loop n i src dst) = length dst /\
  (forall j, i <= j < i + Z.of_nat n -> j < Z.of_nat (length dst) ->
     rd (copy_loop n i src dst) j = rd src j) /\
  (forall j, 0 <= j -> j < i \/ i + Z.of_nat n <= j ->
     rd (copy_loop n i src dst) j = rd dst j).
Proof.
  induction n as [|n IH]; intros i src dst Hi.
  - simpl. repeat split; intros; auto; lia.
  - cbn [copy_loop].
    destruct (IH (i + 1) src (wr dst i (rd src i))) as (L & In & Out); [lia|].
    rewrite length_wr in *.
    repeat split; auto.
    + intros j Hj Hlen. destruct (Z.eq_dec j i) as [->|Hne].
      * rewrite Out by lia. apply rd_wr_same. lia.
      * apply In; lia.
    + intros j Hj Hout. rewrite Out by lia. apply rd_wr_other; lia.
Qed.

(** C7.  [SdGetReadData] returns TRUE exactly when the status is
    [SD_DATA_READY] beforehand.  Then the status becomes [SD_IDLE],
    nothing else of the module state changes, and the destination holds
    [SD_au8RxBuffer[0]] to [SD_au8RxBuffer[511]] at its offsets 0 to 511,
    in that order, and its old contents beyond.  Otherwise it returns
    FALSE, and destination and module state are what they were. *)
Theorem SdGetReadData_copies_iff_data_ready (dst : list Z) (s : State) :
  let '(r, dst', s', c) := SdGetReadData dst s in
  c = [] /\
  (r = true <-> SD_CardState s = SD_DATA_READY) /\
  (r = true ->
     s' = set_SD_CardState SD_IDLE s /\
     length dst' = length dst /\
     (forall j, 0 <= j < 512 -> j < Z.of_nat (length dst) ->
        rd dst' j = rd (SD_au8RxBuffer s) j) /\
     (forall j, 512 <= j -> rd dst' j = rd dst j)) /\
  (r = false -> dst' = dst /\ s' = s).
Proof.
  destruct_State s. driver_cases; repeat split; intros; try congruence.
  - apply (copy_loop_spec 512 0 buf dst). lia.
  - apply (copy_loop_spec 512 0 buf dst); lia.
  - apply (copy_loop_spec 512 0 buf dst); lia.
Qed.

(** *** The parse pointer *)

Lemma advance_once_mod (p : Z) :
  0 <= p < SDCARD_RX_BUFFER_SIZE ->
  advance_once p = (p + 1) mod SDCARD_RX_BUFFER_SIZE.
Proof.
  intros Hp. unfold advance_once.
  destruct (p + 1 =? SDCARD_RX_BUFFER_SIZE) eqn:E.
  - apply Z.eqb_eq in E. rewrite E, Z.mod_same; lia.
  - apply Z.eqb_neq in E. rewrite Z.mod_small; lia.
Qed.

Lemma advance_loop_mod (n : nat) : forall p,
  0 <= p < SDCARD_RX_BUFFER_SIZE ->
  advance_loop n p = (p + Z.of_nat n) mod SDCARD_RX_BUFFER_SIZE.
Proof.
  induction n as [|n IH]; intros p Hp.
  - simpl. rewrite Z.add_0_r, Z.mod_small; lia.
  - cbn [advance_loop]. rewrite IH, advance_once_mod by
      (try rewrite advance_once_mod by lia; try apply Z.mod_pos_bound; lia).
    rewrite Zplus_mod_idemp_l. f_equal. lia.
Qed.

(** C9.  When the parse pointer is inside the receive buffer,
    [AdvanceSD_pu8RxBufferParser n] with [n >= 0] leaves it inside the
    buffer, at the old index plus [n] modulo the buffer size, and changes
    nothing else. *)
Theorem AdvanceSD_pu8RxBufferParser_wraps (s : State) (n : Z) :
  0 <= SD_pu8RxBufferParser s < SDCARD_RX_BUFFER_SIZE ->
  0 <= n ->
  let s' := fst (exec (AdvanceSD_pu8RxBufferParser n) s) in
  SD_pu8RxBufferParser s' =
    (SD_pu8RxBufferParser s + n) mod SDCARD_RX_BUFFER_SIZE /\
  0 <= SD_pu8RxBufferParser s' < SDCARD_RX_BUFFER_SIZE /\
  s' = set_SD_pu8RxBufferParser (SD_pu8RxBufferParser s') s.
Proof.
  intros Hp Hn. destruct_State s. unfold_driver. unfold_driver_in Hp.
  rewrite advance_loop_mod, Z2Nat.id by lia.
  repeat split; try apply Z.mod_pos_bound; lia.
Qed.

(** *** The address of a block read *)

Lemma big_endian_bytes (x : Z) :
  0 <= x < u32_modulus ->
  big_endian (u8 (Z.shiftr x 24)) (u8 (Z.shiftr x 16)) (u8 (Z.shiftr x 8))
    (u8 x) = x.
Proof.
  unfold u32_modulus, big_endian, u8. intros Hx.
  rewrite !Z.shiftr_div_pow2 by lia.
  change (2 ^ 32) with 4294967296 in Hx.
  change (2 ^ 24) with 16777216. change (2 ^ 16) with 65536.
  change (2 ^ 8) with 256.
  Z.div_mod_to_equations. lia.
Qed.

Lemma SdReadBlock_when_idle (sector : Z) (s : State) :
  SD_CardState s = SD_IDLE ->
  SdReadBlock sector s =
    (true,
     set_SD_CardState SD_READING
       (set_SD_u32Address
          (if Z.land (SD_u32Flags s) _SD_CARD_HC =? 0
           then u32 (sector * 512) else sector) s),
     []).
Proof.
  intros H. destruct_State s. unfold_driver_in H. subst.
  driver_cases; reflexivity.
Qed.

Lemma SdCardReadyIdle_queues_CMD17 (e : Env) (s : State) :
  SD_CardState s = SD_READING ->
  length (SD_au8CMD17 s) = 7%nat ->
  P0_22_SD_DET e = false ->
  SspRequest_result e <> 0 ->
  let s2 := fst (exec (SdCardReadyIdle e) s) in
  SD_NextCommand s2 = Some arr.SD_au8CMD17 /\
  rd (SD_au8CMD17 s2) 1 = u8 (Z.shiftr (SD_u32Address s) 24) /\
  rd (SD_au8CMD17 s2) 2 = u8 (Z.shiftr (SD_u32Address s) 16) /\
  rd (SD_au8CMD17 s2) 3 = u8 (Z.shiftr (SD_u32Address s) 8) /\
  rd (SD_au8CMD17 s2) 4 = u8 (SD_u32Address s).
Proof.
  intros Hst Hlen Hdet Hreq. destruct_State s. destruct_Env e.
  unfold_driver_in Hst. unfold_driver_in Hlen. unfold_driver_in Hdet.
  unfold_driver_in Hreq. subst. apply Z.eqb_neq in Hreq.
  unfold_driver. rewrite Hreq. driver_cases;
    (repeat split;
     repeat first [ rewrite rd_wr_other by lia
                  | rewrite rd_wr_same by (rewrite ?length_wr, Hlen; lia) ];
     reflexivity).
Qed.

(** C6, as the code has it.  A read request for [sector], a 32-bit
    number, made while the status is [SD_IDLE], is accepted.  The 32-bit
    address it stores is [sector] when [_SD_CARD_HC] is set and the
    32-bit product [sector * 512], that is [sector * 512] modulo 2^32,
    when it is clear; this is [sector * 512] itself whenever that fits
    in 32 bits.  When [SdCardReadyIdle] then runs with
    the card present and the bus granted, it queues CMD17 with the four
    bytes of that address in elements 1 to 4 of the frame, most
    significant first.  For sector 100 on a card that is not of high
    capacity these bytes are 0, 0, 200, 0, which is 51200. *)
Theorem CMD17_argument_is_the_block_address
    (sector : Z) (e : Env) (s : State) :
  0 <= sector < u32_modulus ->
  SD_CardState s = SD_IDLE ->
  length (SD_au8CMD17 s) = 7%nat ->
  P0_22_SD_DET e = false ->
  SspRequest_result e <> 0 ->
  let accepted := fst (fst (SdReadBlock sector s)) in
  let s1 := snd (fst (SdReadBlock sector s)) in
  let s2 := fst (exec (SdCardReadyIdle e) s1) in
  let address :=
    if Z.land (SD_u32Flags s) _SD_CARD_HC =? 0
    then u32 (sector * 512) else sector in
  accepted = true /\
  SD_CardState s1 = SD_READING /\
  SD_u32Address s1 = address /\
  SD_NextCommand s2 = Some arr.SD_au8CMD17 /\
  big_endian (rd (SD_au8CMD17 s2) 1) (rd (SD_au8CMD17 s2) 2)
    (rd (SD_au8CMD17 s2) 3) (rd (SD_au8CMD17 s2) 4) = address /\
  (Z.land (SD_u32Flags s) _SD_CARD_HC = 0 -> sector * 512 < u32_modulus ->
     address = sector * 512) /\
  (Z.land (SD_u32Flags s) _SD_CARD_HC = 0 -> sector = 100 ->
     rd (SD_au8CMD17 s2) 1 = 0 /\ rd (SD_au8CMD17 s2) 2 = 0 /\
     rd (SD_au8CMD17 s2) 3 = 200 /\ rd (SD_au8CMD17 s2) 4 = 0).
Proof.
  intros Hsector Hidle Hlen Hdet Hreq.
  rewrite (SdReadBlock_when_idle sector s Hidle). cbn [fst snd].
  set (address := if Z.land (SD_u32Flags s) _SD_CARD_HC =? 0
                  then u32 (sector * 512) else sector).
  set (s1 := set_SD_CardState SD_READING (set_SD_u32Address address s)).
  assert (Hs1 : SD_CardState s1 = SD_READING /\ SD_u32Address s1 = address /\
                SD_au8CMD17 s1 = SD_au8CMD17 s)
    by (subst s1; destruct_State s; repeat split).
  destruct Hs1 as (Hst & Haddr & Hc17).
  assert (Hrange : 0 <= address < u32_modulus).
  { subst address. destruct (Z.land (SD_u32Flags s) _SD_CARD_HC =? 0);
      [apply Z.mod_pos_bound; reflexivity | assumption]. }
  destruct (SdCardReadyIdle_queues_CMD17 e s1 Hst) as (N & B1 & B2 & B3 & B4);
    [congruence | assumption | assumption |].
  cbv zeta. rewrite B1, B2, B3, B4, Haddr.
  repeat split; auto; intros; try (apply big_endian_bytes; assumption);
    subst address;
    match goal with H : Z.land _ _ = 0 |- _ => rewrite H end;
    cbn [Z.eqb]; subst; try reflexivity.
  unfold u32. apply Z.mod_small. lia.
Qed.

(** *** Waiting for the card before a command *)

(** C1, as the code has it.  In a pass of [SdCardWaitReady] in which the
    byte read is complete: if the byte under the parse pointer is 0xFF,
    the frame of the saved command is handed to [SspWriteData] in one
    call of [SD_CMD_SIZE] bytes, the parse pointer is advanced by
    [SD_CMD_SIZE], the reference time is taken anew and the next state is
    [SdCardWaitCommand] (unless the time-out test that follows, made
    against the new reference time, already fires); if the byte is
    anything else, one more byte read is queued, the parse pointer is
    advanced by one, and the state machine stays where it is as long as
    the read is accepted and the time-out has not elapsed. *)
Theorem SdCardWaitReady_sends_on_0xFF (e : Env) (s : State) :
  QueryMessageStatus_COMPLETE e = true ->
  let s' := fst (exec (SdCardWaitReady e) s) in
  let c := snd (exec (SdCardWaitReady e) s) in
  (parser_byte s = 0xFF ->
     c = [SspWriteData_call (SD_Ssp s) SD_CMD_SIZE (SD_NextCommand s)
            (array_bytes s (SD_NextCommand s))] /\
     SD_pu8RxBufferParser s' =
       advance_loop (Z.to_nat SD_CMD_SIZE) (SD_pu8RxBufferParser s) /\
     SD_u32Timeout s' = G_u32SystemTime1ms e /\
     G_SdCardStateMachine s' =
       (if IsTimeUp (G_u32SystemTime1ms e) (G_u32SystemTime1ms e)
             SD_SPI_WAIT_TIME_MS
        then Some fn.SdError else Some fn.SdCardWaitCommand)) /\
  (parser_byte s <> 0xFF ->
     c = [SspReadByte_call (SD_Ssp s)] /\
     SD_pu8RxBufferParser s' =
       advance_loop (Z.to_nat 1) (SD_pu8RxBufferParser s) /\
     SD_u32Timeout s' = SD_u32Timeout s /\
     (Ssp_token e <> 0 ->
      IsTimeUp (G_u32SystemTime1ms e) (SD_u32Timeout s)
        SD_SPI_WAIT_TIME_MS = false ->
      G_SdCardStateMachine s' = G_SdCardStateMachine s)).
Proof.
  intros Hdone. destruct_State s. destruct_Env e.
  unfold_driver_in Hdone. subst.
  unfold_driver. destruct (rd buf pp =? 255) eqn:Ebyte.
  - apply Z.eqb_eq in Ebyte. split; [intros _ | intros H; contradiction].
    driver_cases; repeat split.
  - apply Z.eqb_neq in Ebyte. split; [intros H; contradiction | intros _].
    driver_cases; repeat split; intros; try congruence;
      match goal with H : (_ =? 0) = true |- _ => apply Z.eqb_eq in H end;
      congruence.
Qed.

(** *** Time-outs *)

(** C8, as the code has it.  Let [f] be one of the six state functions
    that watch [SD_u32Timeout], and let its period have elapsed when a
    pass through [f] begins.  Then the state machine does not point to
    [f] after the pass.  Moreover, unless the pass is one that ends the
    wait by queueing the next command ([restarts_timeout]), it ends with
    the state machine pointing to [SdError] or [SdFailedDataTransfer] and
    with error code [SD_ERROR_TIMEOUT]. *)
Theorem timeout_leaves_the_wait_state
    (f : fn.t) (period : Z) (e : Env) (s : State) :
  timeout_period f = Some period ->
  IsTimeUp (G_u32SystemTime1ms e) (SD_u32Timeout s) period = true ->
  let s' := fst (exec (state_function f e) s) in
  (G_SdCardStateMachine s = Some f -> G_SdCardStateMachine s' <> Some f) /\
  (restarts_timeout f e s = false ->
     (G_SdCardStateMachine s' = Some fn.SdError \/
      G_SdCardStateMachine s' = Some fn.SdFailedDataTransfer) /\
     SD_u8ErrorCode s' = SD_ERROR_TIMEOUT).
Proof.
  intros Hperiod Hup. destruct_State s. destruct_Env e.
  unfold_driver_in Hup.
  destruct f; cbn [timeout_period] in Hperiod; try discriminate;
    injection Hperiod as <-;
    (split;
     [ intros Hsm; unfold_driver_in Hsm; driver_cases; congruence
     | cbv [restarts_timeout cmd8_voltage_byte cmd8_pattern_byte];
       driver_cases; intros Hr;
       first [ discriminate | congruence | split; [auto | reflexivity] ] ]).
Qed.

(** *** The status is never [SD_WRITING] *)

Lemma act_never_sets_SD_WRITING (a : Action) (s : State) :
  match act a s with
  | Some s' => SD_CardState s' = SD_WRITING -> SD_CardState s = SD_WRITING
  | None => True
  end.
Proof.
  destruct_State s.
  destruct a as [e|b n|e| |x|x|d]; try destruct_Env e; cbv [act];
    driver_cases; auto; discriminate.
Qed.

Lemma SdCardReadyIdle_has_no_use_for_SD_WRITING (e : Env) (s : State) :
  SD_CardState s <> SD_WRITING ->
  SdCardReadyIdle e s = SdCardReadyIdle_reading_only e s.
Proof.
  intros H. destruct_State s. destruct_Env e. unfold_driver_in H.
  cbv [SdCardReadyIdle_reading_only].
  destruct status; try contradiction; driver_cases; reflexivity.
Qed.

Lemma booted_status : SD_CardState booted = SD_NO_CARD.
Proof. reflexivity. Qed.

Lemma reachable_status (s : State) :
  reachable s -> SD_CardState s <> SD_WRITING.
Proof.
  induction 1 as [|a s s' _ IH Hact].
  - rewrite booted_status. discriminate.
  - pose proof (act_never_sets_SD_WRITING a s) as H.
    rewrite Hact in H. auto.
Qed.

(** C10.  [SdWriteBlock] returns FALSE, changes nothing and calls
    nothing.  No action (a pass of the state machine, bytes arriving from
    the bus, a call of a public function) turns a status other than
    [SD_WRITING] into [SD_WRITING].  So the status is not [SD_WRITING] in
    any state the driver reaches after [SdCardInitialize], and in every
    such state [SdCardReadyIdle] does what it would do without its
    [SD_WRITING] part. *)
Theorem status_is_never_SD_WRITING :
  (forall a s, SdWriteBlock a s = (false, s, [])) /\
  (forall a s s', act a s = Some s' ->
     SD_CardState s' = SD_WRITING -> SD_CardState s = SD_WRITING) /\
  (forall s, reachable s -> SD_CardState s <> SD_WRITING) /\
  (forall e s, reachable s ->
     SdCardReadyIdle e s = SdCardReadyIdle_reading_only e s).
Proof.
  split; [reflexivity|]. split; [|split].
  - intros a s s' Hact. pose proof (act_never_sets_SD_WRITING a s) as H.
    rewrite Hact in H. exact H.
  - exact reachable_status.
  - intros e s Hr. apply SdCardReadyIdle_has_no_use_for_SD_WRITING.
    apply reachable_status. exact Hr.
Qed.

(** *** After a failed block read *)

Lemma act_keeps_return_state (a : Action) (s : State) :
  returns_to_SdCardResponseCMD17 s ->
  match act a s with
  | Some s' => returns_to_SdCardResponseCMD17 s'
  | None => True
  end.
Proof.
  destruct_State s. cbv [returns_to_SdCardResponseCMD17]. unfold_driver.
  intros (Hn1 & Hn2 & Hinv).
  destruct a as [e|b n|e| |x|x|d]; try destruct_Env e; cbv [act];
    driver_cases; auto;
    repeat match goal with
           | x : option fn.t |- _ => destruct x
           | x : fn.t |- _ => destruct x
           end;
    try discriminate; try contradiction;
    repeat split; auto; discriminate.
Qed.

Lemma reachable_return_state (s : State) :
  reachable s -> returns_to_SdCardResponseCMD17 s.
Proof.
  induction 1 as [|a s s' _ IH Hact].
  - repeat split; discriminate.
  - pose proof (act_keeps_return_state a s IH) as H.
    rewrite Hact in H. exact H.
Qed.

Lemma run_reachable (l : list Action) : forall s s',
  reachable s -> run l s = Some s' -> reachable s'.
Proof.
  induction l as [|a l IH]; intros s s' Hs Hrun; cbn [run] in Hrun.
  - injection Hrun as <-. exact Hs.
  - destruct (act a s) as [s1|] eqn:Hact; [|discriminate].
    apply (IH s1); [|exact Hrun].
    apply (reachable_act a s); assumption.
Qed.

(** C2, what the code does.  In any state the driver reaches with the
    state machine pointing to [SdFailedDataTransfer]: that function
    deselects the card and releases the bus, sets the parse pointer to the
    write pointer, sets the status to [SD_CARD_ERROR] and goes to
    [SdCardWaitSSP] without storing a state to return to; the flags are
    not touched.  When the wait is over, [SdCardWaitSSP] hands control to
    the state that was stored when CMD17 was queued, which is
    [SdCardResponseCMD17] and not [SdCardReadyIdle]. *)
Theorem failed_transfer_resumes_in_SdCardResponseCMD17
    (e1 e2 : Env) (s : State) :
  reachable s ->
  G_SdCardStateMachine s = Some fn.SdFailedDataTransfer ->
  IsTimeUp (G_u32SystemTime1ms e2) (G_u32SystemTime1ms e1)
    SD_SPI_WAIT_TIME_MS = true ->
  let s1 := fst (exec (SdFailedDataTransfer e1) s) in
  let c1 := snd (exec (SdFailedDataTransfer e1) s) in
  let s2 := fst (exec (SdCardWaitSSP e2) s1) in
  c1 = [SspDeAssertCS_call (SD_Ssp s); SspRelease_call (SD_Ssp s)] /\
  SD_pu8RxBufferParser s1 = SD_pu8RxBufferNextByte s /\
  SD_CardState s1 = SD_CARD_ERROR /\
  G_SdCardStateMachine s1 = Some fn.SdCardWaitSSP /\
  SD_u32Flags s2 = SD_u32Flags s /\
  SD_CardState s2 = SD_CARD_ERROR /\
  G_SdCardStateMachine s2 = Some fn.SdCardResponseCMD17 /\
  G_SdCardStateMachine s2 <> Some fn.SdCardReadyIdle.
Proof.
  intros Hreach Hsm Hup.
  pose proof (reachable_return_state s Hreach) as Hret.
  destruct Hret as (_ & _ & Hret). rewrite Hsm in Hret.
  destruct_State s. destruct_Env e1. destruct_Env e2.
  unfold_driver_in Hret. unfold_driver_in Hup. subst.
  unfold_driver. rewrite Hup. unfold_driver.
  repeat split. discriminate.
Qed.

(** *** The card-type flags *)

Lemma testbit_u32_not (m n : Z) :
  0 <= n ->
  Z.testbit (u32_not m) n = (n <? 32) && negb (Z.testbit m n).
Proof.
  intros Hn. unfold u32_not, u32, u32_modulus.
  destruct (n <? 32) eqn:E.
  - apply Z.ltb_lt in E. rewrite Z.mod_pow2_bits_low, Z.lnot_spec by lia.
    reflexivity.
  - apply Z.ltb_ge in E. rewrite Z.mod_pow2_bits_high by lia. reflexivity.
Qed.

Lemma testbit_u32_high (m n : Z) :
  0 <= m < u32_modulus -> 32 <= n -> Z.testbit m n = false.
Proof.
  intros Hm Hn. destruct (Z.eq_dec m 0) as [->|Hne].
  - apply Z.bits_0.
  - apply Z.bits_above_log2; [lia|].
    assert (Z.log2 m < 32); [|lia].
    apply Z.log2_lt_pow2; [lia|]. exact (proj2 Hm).
Qed.

Lemma land_masked_out (f c m : Z) :
  Z.land c m = 0 -> Z.land (Z.land f c) m = 0.
Proof.
  intros H. rewrite <- Z.land_assoc, H. apply Z.land_0_r.
Qed.

Lemma land_lor_other (f x m : Z) :
  Z.land x m = 0 -> Z.land (Z.lor f x) m = Z.land f m.
Proof.
  intros H. rewrite Z.land_lor_distr_l, H. apply Z.lor_0_r.
Qed.

Lemma land_cleared_other (f x m : Z) :
  0 <= m < u32_modulus -> Z.land x m = 0 ->
  Z.land (Z.land f (u32_not x)) m = Z.land f m.
Proof.
  intros Hm H. rewrite <- Z.land_assoc. f_equal.
  apply Z.bits_inj'. intros n Hn.
  rewrite Z.land_spec, testbit_u32_not by assumption.
  destruct (n <? 32) eqn:E.
  - assert (Hb : Z.testbit (Z.land x m) n = false)
      by (rewrite H; apply Z.bits_0).
    rewrite Z.land_spec in Hb.
    destruct (Z.testbit x n), (Z.testbit m n); simpl in *; congruence.
  - apply Z.ltb_ge in E. rewrite (testbit_u32_high m n) by assumption.
    reflexivity.
Qed.

Lemma land_cleared_same (f m : Z) : Z.land (Z.land f (u32_not m)) m = 0.
Proof.
  rewrite <- Z.land_assoc. replace (Z.land (u32_not m) m) with 0.
  - apply Z.land_0_r.
  - symmetry. apply Z.bits_inj'. intros n Hn.
    rewrite Z.land_spec, testbit_u32_not, Z.bits_0 by assumption.
    destruct (n <? 32), (Z.testbit m n); reflexivity.
Qed.

Lemma land_lor_same (f m : Z) : Z.land (Z.lor f m) m = m.
Proof.
  apply Z.bits_inj'. intros n Hn.
  rewrite Z.land_spec, Z.lor_spec.
  destruct (Z.testbit f n), (Z.testbit m n); reflexivity.
Qed.

(** *** The CMD8 echo *)






Section Flags.
Hypothesis Hok : flag_bits_ok.

Lemma hc_after_clear (f : Z) :
  Z.land (Z.land f SD_CLEAR_CARD_TYPE_BITS) _SD_CARD_HC = 0.
Proof. apply land_masked_out, Hok. Qed.

Lemma sd2_after_clear (f : Z) :
  Z.land (Z.land f SD_CLEAR_CARD_TYPE_BITS) _SD_TYPE_SD2 = 0.
Proof. apply land_masked_out, Hok. Qed.

Lemma hc_after_inserted (f : Z) :
  Z.land (Z.lor f _SD_CARD_INSERTED) _SD_CARD_HC = Z.land f _SD_CARD_HC.
Proof. apply land_lor_other, Hok. Qed.

Lemma sd2_after_inserted (f : Z) :
  Z.land (Z.lor f _SD_CARD_INSERTED) _SD_TYPE_SD2 = Z.land f _SD_TYPE_SD2.
Proof. apply land_lor_other, Hok. Qed.

Lemma hc_after_removed (f : Z) :
  Z.land (Z.land f (u32_not _SD_CARD_INSERTED)) _SD_CARD_HC =
  Z.land f _SD_CARD_HC.
Proof. apply land_cleared_other; apply Hok. Qed.

Lemma sd2_after_removed (f : Z) :
  Z.land (Z.land f (u32_not _SD_CARD_INSERTED)) _SD_TYPE_SD2 =
  Z.land f _SD_TYPE_SD2.
Proof. apply land_cleared_other; apply Hok. Qed.

Lemma hc_after_sd2 (f : Z) :
  Z.land (Z.lor f _SD_TYPE_SD2) _SD_CARD_HC = Z.land f _SD_CARD_HC.
Proof. apply land_lor_other, Hok. Qed.

Lemma hc_after_sd1 (f : Z) :
  Z.land (Z.lor f _SD_TYPE_SD1) _SD_CARD_HC = Z.land f _SD_CARD_HC.
Proof. apply land_lor_other, Hok. Qed.

Lemma sd2_after_sd1 (f : Z) :
  Z.land (Z.lor f _SD_TYPE_SD1) _SD_TYPE_SD2 = Z.land f _SD_TYPE_SD2.
Proof. apply land_lor_other, Hok. Qed.

(** *** Detection of a high-capacity card *)





End Flags.

Lemma detecting_test_correct (l : list Action) (s : State) :
  detecting_test l s = true -> detecting l s.
Proof.
  unfold detecting_test, detecting. intros H s1 a Hin.
  rewrite forallb_forall in H. specialize (H (s1, a) Hin). cbn [fst] in H.
  split; intros E; rewrite E in H; discriminate.
Qed.

End Properties.


(** ** Further properties of the driver *)

Section FurtherProperties.
Context {hdr : Header}.

(** *** The receive buffer and its pointers *)

Lemma advance_loop_inside (n : nat) (p : Z) :
  0 <= p < SDCARD_RX_BUFFER_SIZE ->
  0 <= advance_loop n p < SDCARD_RX_BUFFER_SIZE.
Proof.
  intros Hp. rewrite advance_loop_mod by assumption.
  apply Z.mod_pos_bound. lia.
Qed.

Lemma act_keeps_pointers (a : Action) (s : State) :
  pointers_in_buffer s ->
  keeps_write_pointer_inside a ->
  match act a s with
  | Some s' => pointers_in_buffer s'
  | None => True
  end.
Proof.
  destruct_State s. cbv [pointers_in_buffer keeps_write_pointer_inside].
  unfold_driver. intros [Hp Hn] Ha.
  assert (H0 : 0 <= 0 < SDCARD_RX_BUFFER_SIZE) by lia.
  destruct a as [e|b n|e| |x|x|d]; try destruct_Env e; cbv [act];
    driver_cases; auto;
    (split; [repeat apply advance_loop_inside; lia | lia]).
Qed.

(** X1.  No pass of the state machine and no call of a public function
    moves the parse pointer or the write pointer out of the receive
    buffer, as long as the bus driver keeps the write pointer inside. *)
Theorem pointers_stay_in_buffer (a : Action) (s s' : State) :
  pointers_in_buffer s ->
  keeps_write_pointer_inside a ->
  act a s = Some s' ->
  pointers_in_buffer s'.
Proof.
  intros Hp Ha Hact. pose proof (act_keeps_pointers a s Hp Ha) as H.
  rewrite Hact in H. exact H.
Qed.

Lemma clear_loop_spec (n : nat) : forall i a,
  0 <= i ->
  length (clear_loop n i a) = length a /\
  (forall j, i <= j < i + Z.of_nat n -> j < Z.of_nat (length a) ->
     rd (clear_loop n i a) j = 0) /\
  (forall j, 0 <= j -> j < i \/ i + Z.of_nat n <= j ->
     rd (clear_loop n i a) j = rd a j).
Proof.
  induction n as [|n IH]; intros i a Hi.
  - simpl. repeat split; intros; auto; lia.
  - cbn [clear_loop].
    destruct (IH (i + 1) (wr a i 0)) as (L & In & Out); [lia|].
    rewrite length_wr in *.
    repeat split; auto.
    + intros j Hj Hlen. destruct (Z.eq_dec j i) as [->|Hne].
      * rewrite Out by lia. apply rd_wr_same. lia.
      * apply In; lia.
    + intros j Hj Hout. rewrite Out by lia. apply rd_wr_other; lia.
Qed.

(** X2.  [SdCardInitialize] sets every element of the receive buffer to
    zero (the buffer has [SDCARD_RX_BUFFER_SIZE] elements), puts both
    pointers on its first element, turns the LED request off, switches
    the card power on and makes [SdIdleNoCard] the state to run; status,
    flags and command arrays are left as they are. *)
Theorem SdCardInitialize_clears_the_buffer (s : State) :
  Z.of_nat (length (SD_au8RxBuffer s)) = SDCARD_RX_BUFFER_SIZE ->
  let s' := fst (exec SdCardInitialize s) in
  let c := snd (exec SdCardInitialize s) in
  length (SD_au8RxBuffer s') = length (SD_au8RxBuffer s) /\
  (forall j, 0 <= j -> rd (SD_au8RxBuffer s') j = 0) /\
  SD_pu8RxBufferParser s' = 0 /\
  SD_pu8RxBufferNextByte s' = 0 /\
  G_SdCardStateMachine s' = Some fn.SdIdleNoCard /\
  SD_CardState s' = SD_CardState s /\
  SD_u32Flags s' = SD_u32Flags s /\
  SD_au8CMD17 s' = SD_au8CMD17 s /\
  SD_au8ACMD41 s' = SD_au8ACMD41 s /\
  c = [LedRequest_call LED_OFF; SD_POWER_ON_call;
       DebugPrintf_call au8SdCardStarted].
Proof.
  destruct_State s. unfold_driver. intros Hlen.
  destruct (clear_loop_spec (Z.to_nat SDCARD_RX_BUFFER_SIZE) 0 buf)
    as (L & In & Out); [lia|].
  repeat split; auto.
  intros j Hj. destruct (Z.lt_ge_cases j SDCARD_RX_BUFFER_SIZE) as [Hlt|Hge].
  - apply In; lia.
  - rewrite Out by lia. unfold rd. apply nth_overflow. lia.
Qed.

(** *** The command arrays *)

Lemma act_keeps_frames (a : Action) (s : State) :
  frames_intact s ->
  match act a s with
  | Some s' => frames_intact s'
  | None => True
  end.
Proof.
  destruct_State s. cbv [frames_intact]. unfold_driver.
  intros [(b1 & b2 & b3 & b4 & H17) H41]. subst c17.
  destruct a as [e|b n|e| |x|x|d]; try destruct_Env e; cbv [act];
    driver_cases; auto;
    (split;
     [ eexists _, _, _, _; reflexivity
     | destruct H41 as [-> | ->]; first [ left; reflexivity
                                        | right; reflexivity ] ]).
Qed.

(** X3.  In every state the driver reaches after [SdCardInitialize], the
    CMD17 array still holds the CMD17 opcode, the CRC placeholder and the
    dummy byte around its four address bytes, and the ACMD41 array is as
    initialised or differs from that in its first argument byte only,
    which is then [BIT6]: the state machine writes to elements 1 to 4 of
    the one and to element 1 of the other, and to nothing else. *)
Theorem command_arrays_stay_frames (s : State) :
  reachable s -> frames_intact s.
Proof.
  induction 1 as [|a s s' _ IH Hact].
  - split; [exists 0, 0, 0, 0; reflexivity | left; reflexivity].
  - pose proof (act_keeps_frames a s IH) as H. rewrite Hact in H. exact H.
Qed.

(** *** The retry counter *)

Lemma act_keeps_retries (a : Action) (s : State) :
  0 <= SD_CMD_RETRIES ->
  0 <= u8Retries s <= SD_CMD_RETRIES ->
  match act a s with
  | Some s' => 0 <= u8Retries s' <= SD_CMD_RETRIES
  | None => True
  end.
Proof.
  destruct_State s. unfold_driver. intros Hmax Hr.
  destruct a as [e|b n|e| |x|x|d]; try destruct_Env e; cbv [act];
    driver_cases; auto; try lia;
    match goal with
    | E : (retr =? 0) = false |- _ => apply Z.eqb_neq in E; lia
    end.
Qed.

(** X4.  In every state the driver reaches after [SdCardInitialize], the
    retry counter of [SdCardWaitCommand] lies between 0 and
    [SD_CMD_RETRIES]: it is decremented only when it is not zero, so the
    [u8] never wraps around. *)
Theorem retry_counter_stays_in_range (s : State) :
  0 <= SD_CMD_RETRIES ->
  reachable s ->
  0 <= u8Retries s <= SD_CMD_RETRIES.
Proof.
  intros Hmax. induction 1 as [|a s s' _ IH Hact].
  - cbv [booted power_on]. unfold_driver. lia.
  - pose proof (act_keeps_retries a s Hmax IH) as H.
    rewrite Hact in H. exact H.
Qed.

(** X5.  As long as [SdCardWaitCommand] keeps finding its transfer
    complete and keeps the state machine to itself, each pass uses up one
    retry: it cannot do so for more passes than the counter says,
    provided the state stored for the return is some other state (no
    state function stores [SdCardWaitCommand]). *)
Theorem SdCardWaitCommand_gives_up_retrying
    (passes : list (list Z * Z * Env)) : forall s,
  SD_WaitReturnState s <> Some fn.SdCardWaitCommand ->
  0 <= u8Retries s ->
  keeps_waiting_for_command passes s ->
  Z.of_nat (length passes) <= u8Retries s.
Proof.
  induction passes as [|[[b n] e] rest IH]; intros s Hret Hr Hkeep.
  - simpl. lia.
  - cbn [keeps_waiting_for_command] in Hkeep.
    destruct Hkeep as (Hdone & Hsm & Hrest).
    set (s' := fst (exec (SdCardWaitCommand e) (received b n s))) in *.
    assert (Hstep : SD_WaitReturnState s' = SD_WaitReturnState s /\
                    u8Retries s' = u8Retries s - 1 /\ u8Retries s <> 0).
    { subst s'. revert Hsm Hret. destruct_State s. destruct_Env e.
      unfold_driver_in Hdone. subst. cbv [received]. driver_cases;
        intros Hsm Hret; try discriminate; try congruence;
        match goal with
        | E : (retr =? 0) = false |- _ => apply Z.eqb_neq in E
        end; repeat split; assumption. }
    destruct Hstep as (Hret' & Hr' & Hnz).
    specialize (IH s'). rewrite Hret', Hr' in IH.
    specialize (IH Hret ltac:(lia) Hrest).
    cbn [length]. lia.
Qed.

(** *** The function pointers *)

Lemma act_keeps_callable (a : Action) (s : State) :
  callable s ->
  match act a s with
  | Some s' => callable s'
  | None => True
  end.
Proof.
  destruct_State s. cbv [callable]. unfold_driver. intros [Hsm Hret].
  destruct a as [e|b n|e| |x|x|d]; try destruct_Env e; cbv [act];
    driver_cases; auto; try contradiction;
    repeat match goal with
           | x : option fn.t |- _ => destruct x
           | x : fn.t |- _ => destruct x
           end;
    try contradiction; repeat split; auto; discriminate.
Qed.

Lemma reachable_callable (s : State) : reachable s -> callable s.
Proof.
  induction 1 as [|a s s' _ IH Hact].
  - split; [discriminate | exact I].
  - pose proof (act_keeps_callable a s IH) as H. rewrite Hact in H. exact H.
Qed.

(** X6.  In every state the driver reaches after [SdCardInitialize]
    the state machine pointer is not null, and neither is the state
    stored for the return from a wait whenever a wait is under way, that
    is, while the state machine points to [SdCardWaitSSP],
    [SdCardWaitReady] or [SdCardWaitCommand] or to a state of the block
    read that leads to [SdCardWaitSSP] ([SdCardResponseCMD17],
    [SdCardWaitStartToken], [SdFailedDataTransfer]).  So every pass of
    the scheduler finds a state function to call, and leaves a state of
    which the same holds. *)
Theorem state_machine_is_never_null (e : Env) (s : State) :
  reachable s ->
  (G_SdCardStateMachine s <> None /\
   match G_SdCardStateMachine s with
   | Some fn.SdCardWaitSSP | Some fn.SdCardWaitCommand
   | Some fn.SdCardWaitReady | Some fn.SdCardResponseCMD17
   | Some fn.SdCardWaitStartToken | Some fn.SdFailedDataTransfer =>
       SD_WaitReturnState s <> None
   | _ => True
   end) /\
  exists s' c,
    tick e s = Some (s', c) /\ callable s'.
Proof.
  intros Hr. pose proof (reachable_callable s Hr) as Hc.
  split; [exact Hc|].
  destruct (tick e s) as [[s' c]|] eqn:Ht.
  - exists s', c. split; [reflexivity|].
    assert (Hact : act (Tick e) s = Some s')
      by (cbn [act]; rewrite Ht; reflexivity).
    exact (reachable_callable s' (reachable_act (Tick e) s s' Hr Hact)).
  - exfalso. unfold tick in Ht. destruct Hc as [Hsm _].
    destruct (G_SdCardStateMachine s); [discriminate | contradiction].
Qed.

(** *** Card presence *)

(** X7.  [SdIsCardInserted] returns TRUE exactly when the presence pin
    reads low.  Then [_SD_CARD_INSERTED] is set and the status is left
    alone; otherwise the flag is cleared and the status becomes
    [SD_NO_CARD], whatever it was.  No other flag bit changes, and no
    other driver is called. *)
Theorem SdIsCardInserted_follows_the_pin (e : Env) (s : State) :
  let '(r, s', c) := SdIsCardInserted e s in
  c = [] /\
  r = negb (P0_22_SD_DET e) /\
  (r = true ->
     SD_CardState s' = SD_CardState s /\
     Z.land (SD_u32Flags s') _SD_CARD_INSERTED = _SD_CARD_INSERTED) /\
  (r = false ->
     SD_CardState s' = SD_NO_CARD /\
     Z.land (SD_u32Flags s') _SD_CARD_INSERTED = 0) /\
  (forall m, 0 <= m < u32_modulus -> Z.land _SD_CARD_INSERTED m = 0 ->
     Z.land (SD_u32Flags s') m = Z.land (SD_u32Flags s) m) /\
  s' = set_SD_CardState (SD_CardState s') (set_SD_u32Flags (SD_u32Flags s') s).
Proof.
  destruct_State s. destruct_Env e. driver_cases;
    repeat split; intros; try discriminate;
    auto using land_lor_same, land_cleared_same, land_lor_other,
      land_cleared_other.
Qed.

(** X8.  A pass in which a polling state finds its transfer still pending
    and its period, if it has one, not yet over changes nothing and calls
    nothing. *)
Theorem pending_pass_changes_nothing (f : fn.t) (e : Env) (s : State) :
  polls_a_transfer f = true ->
  QueryMessageStatus_COMPLETE e = false ->
  (forall period, timeout_period f = Some period ->
     IsTimeUp (G_u32SystemTime1ms e) (SD_u32Timeout s) period = false) ->
  exec (state_function f e) s = (s, []).
Proof.
  intros Hf Hdone Hup. destruct_State s. destruct_Env e.
  unfold_driver_in Hdone. unfold_driver_in Hup. subst.
  destruct f; try discriminate Hf;
    try (specialize (Hup _ eq_refl));
    unfold_driver; rewrite ?Hup; reflexivity.
Qed.

(** *** Recovery *)

(** X9.  [SdError] deselects the card, releases the bus, sets the parse
    pointer to the write pointer, asks for the fast blink, prints the
    error prefix and the message of the error code, sets the status to
    [SD_NO_CARD] and starts a wait.  While the wait lasts,
    [SdCardWaitSSP] changes nothing; once it is over it turns the LED
    request off and hands control to [SdIdleNoCard], so that the card is
    detected anew.  The flags are not touched on the way. *)
Theorem SdError_returns_to_detection (e1 e2 : Env) (s : State) :
  let s1 := fst (exec (SdError e1) s) in
  let c1 := snd (exec (SdError e1) s) in
  let s2 := fst (exec (SdCardWaitSSP e2) s1) in
  let c2 := snd (exec (SdCardWaitSSP e2) s1) in
  c1 = [SspDeAssertCS_call (SD_Ssp s); SspRelease_call (SD_Ssp s);
        LedRequest_call LED_8HZ; DebugPrintf_call SD_au8CardError;
        DebugPrintf_call (error_message (SD_u8ErrorCode s))] /\
  SD_CardState s1 = SD_NO_CARD /\
  SD_pu8RxBufferParser s1 = SD_pu8RxBufferNextByte s /\
  G_SdCardStateMachine s1 = Some fn.SdCardWaitSSP /\
  SD_u32Flags s1 = SD_u32Flags s /\
  (IsTimeUp (G_u32SystemTime1ms e2) (G_u32SystemTime1ms e1)
     SD_SPI_WAIT_TIME_MS = false -> s2 = s1 /\ c2 = []) /\
  (IsTimeUp (G_u32SystemTime1ms e2) (G_u32SystemTime1ms e1)
     SD_SPI_WAIT_TIME_MS = true ->
   c2 = [LedRequest_call LED_OFF] /\
   G_SdCardStateMachine s2 = Some fn.SdIdleNoCard /\
   SD_CardState s2 = SD_NO_CARD /\
   SD_u32Flags s2 = SD_u32Flags s).
Proof.
  destruct_State s. destruct_Env e1. destruct_Env e2.
  unfold_driver. repeat split; intros;
    repeat match goal with
           | H : IsTimeUp _ _ _ = _ |- _ => rewrite H
           end; reflexivity.
Qed.

(** X10.  A read request outlives a refusal of the bus.  When
    [SdCardReadyIdle] runs with the card present and the status
    [SD_READING] and the bus is not granted, it queues nothing and goes
    to wait, with itself as the state to return to; after the wait the
    state machine is back in [SdCardReadyIdle] with the status still
    [SD_READING] and the address and the CMD17 array as they were. *)
Theorem read_request_outlives_bus_refusal (e1 e2 : Env) (s : State) :
  P0_22_SD_DET e1 = false ->
  SD_CardState s = SD_READING ->
  SspRequest_result e1 = 0 ->
  IsTimeUp (G_u32SystemTime1ms e2) (G_u32SystemTime1ms e1)
    SD_SPI_WAIT_TIME_MS = true ->
  let s1 := fst (exec (SdCardReadyIdle e1) s) in
  let c1 := snd (exec (SdCardReadyIdle e1) s) in
  let s2 := fst (exec (SdCardWaitSSP e2) s1) in
  c1 = [SspRequest_call; DebugPrintf_call SD_au8SspRequestFailed] /\
  G_SdCardStateMachine s1 = Some fn.SdCardWaitSSP /\
  G_SdCardStateMachine s2 = Some fn.SdCardReadyIdle /\
  SD_CardState s2 = SD_READING /\
  SD_u32Address s2 = SD_u32Address s /\
  SD_au8CMD17 s2 = SD_au8CMD17 s.
Proof.
  intros Hdet Hst Hreq Hup. destruct_State s. destruct_Env e1.
  destruct_Env e2. unfold_driver_in Hdet. unfold_driver_in Hst.
  unfold_driver_in Hreq. unfold_driver_in Hup. subst.
  unfold_driver. cbn [Z.eqb]. unfold_driver. rewrite Hup. unfold_driver.
  repeat split.
Qed.

(** *** A command and its response *)

(** X11.  One command exchange.  [SdCommand] deselects the card, queues a
    byte read and selects the card again; the caller stores the state
    [r] to return to.  When the byte read has brought 0xFF,
    [SdCardWaitReady] writes the frame of the command; when the write is
    complete and the byte [SD_CMD_SIZE] places further on in the receive
    buffer has its top bit clear, [SdCardWaitCommand] hands control to
    [r] with the parse pointer on that byte and the retry counter
    restored.  All this provided the bus driver accepts the two requests
    and neither period is over. *)
Theorem command_exchange
    (cmd : arr.t) (r : fn.t) (e1 e2 e3 : Env)
    (b2 b3 : list Z) (n2 n3 : Z) (s : State) :
  Ssp_token e1 <> 0 ->
  QueryMessageStatus_COMPLETE e2 = true ->
  QueryMessageStatus_COMPLETE e3 = true ->
  rd b2 (SD_pu8RxBufferParser s) = 0xFF ->
  Z.land
    (rd b3 (advance_loop (Z.to_nat SD_CMD_SIZE) (SD_pu8RxBufferParser s)))
    BIT7 = 0 ->
  IsTimeUp (G_u32SystemTime1ms e2) (G_u32SystemTime1ms e2)
    SD_SPI_WAIT_TIME_MS = false ->
  IsTimeUp (G_u32SystemTime1ms e3) (G_u32SystemTime1ms e2)
    SD_WAIT_TIME = false ->
  let s1 :=
    set_SD_WaitReturnState (Some r) (fst (exec (SdCommand e1 cmd) s)) in
  let c1 := snd (exec (SdCommand e1 cmd) s) in
  let s2 := fst (exec (SdCardWaitReady e2) (received b2 n2 s1)) in
  let c2 := snd (exec (SdCardWaitReady e2) (received b2 n2 s1)) in
  let s3 := fst (exec (SdCardWaitCommand e3) (received b3 n3 s2)) in
  let c3 := snd (exec (SdCardWaitCommand e3) (received b3 n3 s2)) in
  c1 = [SspDeAssertCS_call (SD_Ssp s); SspReadByte_call (SD_Ssp s);
        SspAssertCS_call (SD_Ssp s)] /\
  c2 = [SspWriteData_call (SD_Ssp s) SD_CMD_SIZE (Some cmd)
          (array_bytes s (Some cmd))] /\
  c3 = [] /\
  G_SdCardStateMachine s3 = Some r /\
  SD_pu8RxBufferParser s3 =
    advance_loop (Z.to_nat SD_CMD_SIZE) (SD_pu8RxBufferParser s) /\
  u8Retries s3 = SD_CMD_RETRIES /\
  SD_u32Flags s3 = SD_u32Flags s /\
  SD_CardState s3 = SD_CardState s.
Proof.
  intros Htok Hd2 Hd3 Hff Hr1 Hup2 Hup3.
  destruct_State s. destruct_Env e1. destruct_Env e2. destruct_Env e3.
  unfold_driver_in Htok. unfold_driver_in Hd2. unfold_driver_in Hd3.
  unfold_driver_in Hff. unfold_driver_in Hr1. unfold_driver_in Hup2.
  unfold_driver_in Hup3. subst. apply Z.eqb_neq in Htok.
  cbv [received]. unfold_driver. rewrite Htok. unfold_driver.
  rewrite Hff. cbn [Z.eqb Pos.eqb]. unfold_driver. rewrite Hup2.
  unfold_driver. rewrite Hr1. cbn [Z.eqb]. unfold_driver. rewrite Hup3.
  unfold_driver. destruct cmd; repeat split.
Qed.

(** X12.  A CMD8 echo with the right voltage range but another check
    pattern raises no error: [SdCardReadCMD8] steps over the four bytes
    and stays the state to run, so that its next pass looks at the bytes
    that follow; only the time-out ends this. *)
Theorem CMD8_pattern_mismatch_is_not_reported (e : Env) (s : State) :
  QueryMessageStatus_COMPLETE e = true ->
  cmd8_voltage_byte s = SD_VHS_VALUE ->
  cmd8_pattern_byte s <> SD_CHECK_PATTERN ->
  IsTimeUp (G_u32SystemTime1ms e) (SD_u32Timeout s) SD_SPI_WAIT_TIME_MS
    = false ->
  exec (SdCardReadCMD8 e) s =
    (set_SD_pu8RxBufferParser
       (advance_loop (Z.to_nat 1)
          (advance_loop (Z.to_nat 1)
             (advance_loop (Z.to_nat 2) (SD_pu8RxBufferParser s)))) s,
     []).
Proof.
  intros Hdone Hv Hp Hup. destruct_State s. destruct_Env e.
  cbv [cmd8_voltage_byte cmd8_pattern_byte] in Hv, Hp.
  unfold_driver_in Hdone. unfold_driver_in Hv. unfold_driver_in Hp.
  unfold_driver_in Hup. subst. apply Z.eqb_eq in Hv. apply Z.eqb_neq in Hp.
  unfold_driver. rewrite Hv. unfold_driver. rewrite Hp. unfold_driver.
  rewrite Hup. reflexivity.
Qed.

(** *** Reading a block *)

(** X13.  From the end of the transfer to the client.  When
    [SdCardDataTransfer] finds the block read complete in time, it
    deselects the card, releases the bus, puts both buffer pointers back
    on the first element, sets the status to [SD_DATA_READY] and returns
    to [SdCardReadyIdle] without touching the buffer; [SdGetReadData]
    then succeeds, hands the client the first 512 bytes of the receive
    buffer and sets the status to [SD_IDLE]. *)
Theorem block_reaches_the_client (e : Env) (dst : list Z) (s : State) :
  QueryMessageStatus_COMPLETE e = true ->
  IsTimeUp (G_u32SystemTime1ms e) (SD_u32Timeout s)
    SD_SECTOR_READ_TIMEOUT_MS = false ->
  512 <= Z.of_nat (length dst) ->
  let s1 := fst (exec (SdCardDataTransfer e) s) in
  let c1 := snd (exec (SdCardDataTransfer e) s) in
  let '(r, dst', s2, c2) := SdGetReadData dst s1 in
  c1 = [SspDeAssertCS_call (SD_Ssp s); SspRelease_call (SD_Ssp s)] /\
  SD_CardState s1 = SD_DATA_READY /\
  G_SdCardStateMachine s1 = Some fn.SdCardReadyIdle /\
  SD_pu8RxBufferParser s1 = 0 /\ SD_pu8RxBufferNextByte s1 = 0 /\
  SD_au8RxBuffer s1 = SD_au8RxBuffer s /\
  r = true /\ c2 = [] /\
  SD_CardState s2 = SD_IDLE /\
  G_SdCardStateMachine s2 = Some fn.SdCardReadyIdle /\
  length dst' = length dst /\
  (forall j, 0 <= j < 512 -> rd dst' j = rd (SD_au8RxBuffer s) j).
Proof.
  intros Hdone Hup Hlen. destruct_State s. destruct_Env e.
  unfold_driver_in Hdone. unfold_driver_in Hup. subst.
  unfold_driver. rewrite Hup. unfold_driver.
  destruct (copy_loop_spec 512 0 buf dst) as (L & In & _); [lia|].
  repeat split; auto. intros j Hj. apply In; lia.
Qed.

(** X14.  On the way to the data, the answer of the bus driver to a
    request to read is stored and never looked at: whatever token
    [SdCardResponseCMD17] and [SdCardWaitStartToken] get back, and be it
    the zero of a refused request, they make the same calls and leave
    the same state but for the stored token.  (The state functions of the
    detection treat a zero token as an error.) *)
Theorem block_read_ignores_refused_requests (t : Z) (e : Env) (s : State) :
  (snd (exec (SdCardResponseCMD17 (with_token t e)) s) =
     snd (exec (SdCardResponseCMD17 e) s) /\
   set_SD_u32CurrentMsgToken 0
     (fst (exec (SdCardResponseCMD17 (with_token t e)) s)) =
   set_SD_u32CurrentMsgToken 0 (fst (exec (SdCardResponseCMD17 e) s))) /\
  (snd (exec (SdCardWaitStartToken (with_token t e)) s) =
     snd (exec (SdCardWaitStartToken e) s) /\
   set_SD_u32CurrentMsgToken 0
     (fst (exec (SdCardWaitStartToken (with_token t e)) s)) =
   set_SD_u32CurrentMsgToken 0 (fst (exec (SdCardWaitStartToken e) s))).
Proof.
  destruct_State s. destruct_Env e. cbv [with_token].
  repeat split; driver_cases; reflexivity.
Qed.

(** *** The card-type flags, again *)

Section TypeFlags.
Hypothesis Hok : type_flags_ok.

Lemma sd1_after_clear (f : Z) :
  Z.land (Z.land f SD_CLEAR_CARD_TYPE_BITS) _SD_TYPE_SD1 = 0.
Proof. apply land_masked_out, Hok. Qed.

Lemma sd1_after_inserted (f : Z) :
  Z.land (Z.lor f _SD_CARD_INSERTED) _SD_TYPE_SD1 = Z.land f _SD_TYPE_SD1.
Proof. apply land_lor_other, Hok. Qed.

Lemma sd1_after_removed (f : Z) :
  Z.land (Z.land f (u32_not _SD_CARD_INSERTED)) _SD_TYPE_SD1 =
  Z.land f _SD_TYPE_SD1.
Proof. apply land_cleared_other; apply Hok. Qed.

Lemma sd1_after_sd2 (f : Z) :
  Z.land (Z.lor f _SD_TYPE_SD2) _SD_TYPE_SD1 = Z.land f _SD_TYPE_SD1.
Proof.
  apply land_lor_other. rewrite Z.land_comm. apply (sd1_sd2 (flags_ok Hok)).
Qed.

Lemma sd1_after_hc (f : Z) :
  Z.land (Z.lor f _SD_CARD_HC) _SD_TYPE_SD1 = Z.land f _SD_TYPE_SD1.
Proof.
  apply land_lor_other. rewrite Z.land_comm. apply (sd1_hc (flags_ok Hok)).
Qed.

Lemma sd2_after_hc (f : Z) :
  Z.land (Z.lor f _SD_CARD_HC) _SD_TYPE_SD2 = Z.land f _SD_TYPE_SD2.
Proof.
  apply land_lor_other. rewrite Z.land_comm. apply (sd2_hc (flags_ok Hok)).
Qed.

Lemma sd1_after_hc_cleared (f : Z) :
  Z.land (Z.land f (u32_not _SD_CARD_HC)) _SD_TYPE_SD1 =
  Z.land f _SD_TYPE_SD1.
Proof.
  apply land_cleared_other; [apply Hok|].
  rewrite Z.land_comm. apply (sd1_hc (flags_ok Hok)).
Qed.

Lemma sd2_after_hc_cleared (f : Z) :
  Z.land (Z.land f (u32_not _SD_CARD_HC)) _SD_TYPE_SD2 =
  Z.land f _SD_TYPE_SD2.
Proof.
  apply land_cleared_other; [apply (sd2_range (flags_ok Hok))|].
  rewrite Z.land_comm. apply (sd2_hc (flags_ok Hok)).
Qed.

Lemma inserted_after_removed_and_clear (f : Z) :
  Z.land (Z.land (Z.land f (u32_not _SD_CARD_INSERTED))
            SD_CLEAR_CARD_TYPE_BITS) _SD_CARD_INSERTED = 0.
Proof.
  rewrite <- Z.land_assoc,
    (Z.land_comm SD_CLEAR_CARD_TYPE_BITS _SD_CARD_INSERTED), Z.land_assoc,
    land_cleared_same.
  apply Z.land_0_l.
Qed.

(** X15.  The card is pulled out while the driver is in
    [SdCardReadyIdle].  The pass that sees the presence pin high requests
    the LED off and nothing else, not even the bus for a read that was
    asked for: the status becomes [SD_NO_CARD], the inserted flag and the
    three card-type flags are clear, and after the wait the state machine
    is in [SdIdleNoCard]. *)
Theorem card_removal_ends_in_SdIdleNoCard (e1 e2 : Env) (s : State) :
  P0_22_SD_DET e1 = true ->
  IsTimeUp (G_u32SystemTime1ms e2) (G_u32SystemTime1ms e1)
    SD_SPI_WAIT_TIME_MS = true ->
  let s1 := fst (exec (SdCardReadyIdle e1) s) in
  let c1 := snd (exec (SdCardReadyIdle e1) s) in
  let s2 := fst (exec (SdCardWaitSSP e2) s1) in
  c1 = [LedRequest_call LED_OFF] /\
  SD_CardState s1 = SD_NO_CARD /\
  G_SdCardStateMachine s1 = Some fn.SdCardWaitSSP /\
  Z.land (SD_u32Flags s1) _SD_CARD_INSERTED = 0 /\
  Z.land (SD_u32Flags s1) _SD_TYPE_SD1 = 0 /\
  Z.land (SD_u32Flags s1) _SD_TYPE_SD2 = 0 /\
  Z.land (SD_u32Flags s1) _SD_CARD_HC = 0 /\
  G_SdCardStateMachine s2 = Some fn.SdIdleNoCard /\
  SD_CardState s2 = SD_NO_CARD /\
  SD_u32Flags s2 = SD_u32Flags s1.
Proof.
  intros Hdet Hup. destruct_State s. destruct_Env e1. destruct_Env e2.
  unfold_driver_in Hdet. unfold_driver_in Hup. subst.
  unfold_driver. rewrite Hup. unfold_driver.
  repeat split;
    first [ apply inserted_after_removed_and_clear
          | apply sd1_after_clear
          | apply (sd2_after_clear (flags_ok Hok))
          | apply (hc_after_clear (flags_ok Hok)) ].
Qed.

(** X16.  [SdIdleNoCard].  Without a card it requests nothing and stays
    the state to run.  With a card but without the bus it goes to wait
    and comes back.  With card and bus it starts a detection with the
    three card-type flags clear and the parse pointer on the write
    pointer: it requests the slow blink and queues the wake-up read; the
    next state is [SdCardDummies] with the card selected, or [SdError]
    with [SD_ERROR_NO_TOKEN] when the read is refused. *)
Theorem SdIdleNoCard_starts_a_detection (e : Env) (s : State) :
  let s' := fst (exec (SdIdleNoCard e) s) in
  let c := snd (exec (SdIdleNoCard e) s) in
  (P0_22_SD_DET e = true ->
     c = [] /\ G_SdCardStateMachine s' = G_SdCardStateMachine s /\
     SD_CardState s' = SD_NO_CARD) /\
  (P0_22_SD_DET e = false -> SspRequest_result e = 0 ->
     c = [SspRequest_call; DebugPrintf_call SD_au8SspRequestFailed] /\
     G_SdCardStateMachine s' = Some fn.SdCardWaitSSP /\
     SD_WaitReturnState s' = Some fn.SdIdleNoCard /\
     SD_u32Timeout s' = G_u32SystemTime1ms e /\
     SD_CardState s' = SD_CardState s) /\
  (P0_22_SD_DET e = false -> SspRequest_result e <> 0 ->
     Z.land (SD_u32Flags s') _SD_TYPE_SD1 = 0 /\
     Z.land (SD_u32Flags s') _SD_TYPE_SD2 = 0 /\
     Z.land (SD_u32Flags s') _SD_CARD_HC = 0 /\
     SD_pu8RxBufferParser s' = SD_pu8RxBufferNextByte s /\
     SD_Ssp s' = SspRequest_result e /\
     SD_CardState s' = SD_CardState s /\
     (Ssp_token e <> 0 ->
        c = [SspRequest_call; LedRequest_call LED_1HZ;
             SspReadData_call (SspRequest_result e) SD_WAKEUP_BYTES;
             SspAssertCS_call (SspRequest_result e)] /\
        G_SdCardStateMachine s' = Some fn.SdCardDummies) /\
     (Ssp_token e = 0 ->
        c = [SspRequest_call; LedRequest_call LED_1HZ;
             SspReadData_call (SspRequest_result e) SD_WAKEUP_BYTES] /\
        G_SdCardStateMachine s' = Some fn.SdError /\
        SD_u8ErrorCode s' = SD_ERROR_NO_TOKEN)).
Proof.
  destruct_State s. destruct_Env e. driver_cases;
    repeat match goal with
           | E : (_ =? _) = true |- _ => apply Z.eqb_eq in E
           | E : (_ =? _) = false |- _ => apply Z.eqb_neq in E
           end;
    repeat split; intros; try discriminate; try contradiction;
    try congruence;
    first [ apply sd1_after_clear
          | apply (sd2_after_clear (flags_ok Hok))
          | apply (hc_after_clear (flags_ok Hok)) ].
Qed.

(** *** What a detection leaves behind *)

Lemma outcome_step (a : Action) (s : State) (k : bool) :
  outcome_invariant s k ->
  G_SdCardStateMachine s <> Some fn.SdCardReadyIdle ->
  G_SdCardStateMachine s <> Some fn.SdError ->
  match act a s with
  | Some s' => outcome_invariant s' (cmd16_acknowledged a s || k)
  | None => True
  end.
Proof.
  pose proof (hc_nonzero (flags_ok Hok)) as Hnz.
  pose proof (sd1_nonzero Hok) as Hnz1.
  pose proof (sd2_nonzero Hok) as Hnz2.
  destruct_State s.
  cbv [outcome_invariant flags_before one_version cmd16_acknowledged].
  unfold_driver. intros Hinv Hn1 Hn2.
  destruct a as [e|b n|e| |x|x|d]; try destruct_Env e; cbv [act];
    driver_cases; auto;
    try contradiction; try (exfalso; congruence);
    repeat match goal with
           | x : option fn.t |- _ => destruct x
           | x : fn.t |- _ => destruct x
           end;
    try contradiction; try discriminate; try tauto;
    repeat match goal with
           | E : (_ =? _) = true |- _ => apply Z.eqb_eq in E
           | E : (_ =? _) = false |- _ => apply Z.eqb_neq in E
           end;
    repeat first
      [ rewrite sd1_after_hc | rewrite sd2_after_hc
      | rewrite sd1_after_hc_cleared | rewrite sd2_after_hc_cleared
      | rewrite sd1_after_clear | rewrite (sd2_after_clear (flags_ok Hok))
      | rewrite (hc_after_clear (flags_ok Hok))
      | rewrite sd1_after_inserted
      | rewrite (sd2_after_inserted (flags_ok Hok))
      | rewrite (hc_after_inserted (flags_ok Hok))
      | rewrite sd1_after_removed
      | rewrite (sd2_after_removed (flags_ok Hok))
      | rewrite (hc_after_removed (flags_ok Hok))
      | rewrite sd1_after_sd2 | rewrite (hc_after_sd2 (flags_ok Hok))
      | rewrite (hc_after_sd1 (flags_ok Hok))
      | rewrite (sd2_after_sd1 (flags_ok Hok))
      | rewrite land_cleared_same | rewrite land_lor_same ];
    try solve [intuition congruence].
Qed.

Lemma outcome_run (l : list Action) : forall s s' k,
  outcome_invariant s k ->
  detecting l s ->
  run l s = Some s' ->
  outcome_invariant s' (happened cmd16_acknowledged l s || k).
Proof.
  induction l as [|a l IH]; intros s s' k Hinv Hdet Hrun.
  - injection Hrun as <-. exact Hinv.
  - cbn [run] in Hrun. unfold happened. cbn [history existsb fst snd].
    destruct (Hdet s a) as [Hn1 Hn2]; [cbn [history]; left; reflexivity|].
    pose proof (outcome_step a s k Hinv Hn1 Hn2) as Hstep.
    destruct (act a s) as [s1|] eqn:Hact; [|discriminate].
    rewrite (orb_comm (cmd16_acknowledged a s)), <- !orb_assoc.
    apply (IH s1); [exact Hstep| |exact Hrun].
    intros s2 a2 Hin. apply (Hdet s2 a2). cbn [history]. rewrite Hact.
    right. exact Hin.
Qed.

(** X17.  A detection attempt that ends in [SdCardReadyIdle] leaves the
    status [SD_IDLE] and the LED request on, has marked the card as of
    exactly one of the two versions, and has marked it as of high
    capacity only if it marked it as of version 2. *)
Theorem detection_marks_one_version (l : list Action) (s s' : State) :
  G_SdCardStateMachine s = Some fn.SdIdleNoCard ->
  detecting l s ->
  run l s = Some s' ->
  G_SdCardStateMachine s' = Some fn.SdCardReadyIdle ->
  SD_CardState s' = SD_IDLE /\
  SD_CardStatusLed_eBlinkRate s' = LED_ON /\
  one_version s' /\
  (Z.land (SD_u32Flags s') _SD_CARD_HC <> 0 ->
   Z.land (SD_u32Flags s') _SD_TYPE_SD2 <> 0).
Proof.
  intros Hstart Hdet Hrun Hend.
  assert (Hinv : outcome_invariant s false)
    by (unfold outcome_invariant; rewrite Hstart; reflexivity).
  pose proof (outcome_run l s s' false Hinv Hdet Hrun) as H.
  unfold outcome_invariant in H. rewrite Hend in H. tauto.
Qed.

(** X18.  A detection attempt that ends in [SdCardReadyIdle] contains a
    pass of [SdCardResponseCMD16] that found the card ready, that is, the
    block length was set to 512 bytes with CMD16, if and only if the card
    has not been marked as of high capacity. *)
Theorem block_length_is_set_unless_high_capacity
    (l : list Action) (s s' : State) :
  G_SdCardStateMachine s = Some fn.SdIdleNoCard ->
  detecting l s ->
  run l s = Some s' ->
  G_SdCardStateMachine s' = Some fn.SdCardReadyIdle ->
  (happened cmd16_acknowledged l s = true <->
   Z.land (SD_u32Flags s') _SD_CARD_HC = 0).
Proof.
  intros Hstart Hdet Hrun Hend.
  assert (Hinv : outcome_invariant s false)
    by (unfold outcome_invariant; rewrite Hstart; reflexivity).
  pose proof (outcome_run l s s' false Hinv Hdet Hrun) as H.
  unfold outcome_invariant in H. rewrite Hend, orb_false_r in H. tauto.
Qed.

End TypeFlags.

(** *** Waiting for the card to leave the idle state *)

Lemma rd_repeat (v : Z) (n : nat) (p : Z) :
  0 <= p < Z.of_nat n -> rd (repeat v n) p = v.
Proof.
  intros Hp. unfold rd.
  assert (H : (Z.to_nat p < n)%nat) by lia. clear Hp.
  revert H. generalize (Z.to_nat p) as i. induction n as [|n IH]; intros i H.
  - lia.
  - destruct i; simpl; [reflexivity | apply IH; lia].
Qed.

Lemma run_app (l1 l2 : list Action) (s : State) :
  run (l1 ++ l2) s =
  match run l1 s with Some s1 => run l2 s1 | None => None end.
Proof.
  revert s. induction l1 as [|a l1 IH]; intros s; simpl.
  - reflexivity.
  - destruct (act a s); [apply IH | reflexivity].
Qed.

Lemma polling_round_again (e : Env) (len : nat) (s : State) :
  QueryMessageStatus_COMPLETE e = true ->
  Ssp_token e <> 0 ->
  IsTimeUp (G_u32SystemTime1ms e) (G_u32SystemTime1ms e)
    SD_SPI_WAIT_TIME_MS = false ->
  IsTimeUp (G_u32SystemTime1ms e) (G_u32SystemTime1ms e)
    SD_WAIT_TIME = false ->
  SD_STATUS_IDLE <> SD_STATUS_READY ->
  Z.land SD_STATUS_IDLE BIT7 = 0 ->
  about_to_send_ACMD41 len s ->
  exists s',
    run (polling_round e len) s = Some s' /\
    about_to_send_ACMD41 len s' /\
    SD_CardState s' = SD_CardState s /\
    SD_u8ErrorCode s' = SD_u8ErrorCode s.
Proof.
  intros Hdone Htok Hup1 Hup2 Hne Htop (Hsm & Hlen & Hsize & Hp).
  destruct_State s. destruct_Env e.
  unfold_driver_in Hdone. unfold_driver_in Htok. unfold_driver_in Hup1.
  unfold_driver_in Hup2. unfold_driver_in Hsm. unfold_driver_in Hlen.
  unfold_driver_in Hp. subst sm done.
  apply Z.eqb_neq in Htok. apply Z.eqb_neq in Hne.
  assert (Hin : forall n q, 0 <= q < SDCARD_RX_BUFFER_SIZE ->
                       0 <= advance_loop n q < Z.of_nat len)
    by (intros; rewrite Hsize; apply advance_loop_inside; assumption).
  assert (Hin0 : 0 <= pp < Z.of_nat len) by lia.
  cbv [polling_round run act tick about_to_send_ACMD41]. unfold_driver.
  destruct (Z.land flags _SD_TYPE_SD2 =? 0) eqn:Ev2; unfold_driver;
  repeat (first
    [ rewrite repeat_length
    | rewrite Hlen
    | rewrite Nat.eqb_refl
    | rewrite (rd_repeat _ len pp Hin0)
    | rewrite rd_repeat by (rewrite Hsize;
                            repeat apply advance_loop_inside; assumption)
    | rewrite Z.eqb_refl
    | rewrite Htok | rewrite Hne | rewrite Hup1 | rewrite Hup2
    | rewrite Htop | rewrite Ev2 ];
    cbv [run act tick]; unfold_driver;
    cbn [Z.eqb Pos.eqb Z.to_nat Pos.to_nat Pos.iter_op Nat.add
         advance_loop negb]).
  all: eexists; split; [reflexivity|]; cbv beta iota;
    split; [|split; reflexivity];
    split; [reflexivity|]; split; [apply repeat_length|];
    split; [assumption|];
    split; [repeat apply advance_loop_inside; lia | ];
    repeat apply advance_loop_inside; lia.
Qed.

(** X19.  The repetition of CMD55 and ACMD41 has no limit of its own.
    While the card answers "idle" to both and the bus driver accepts the
    requests in time, any number of rounds leaves the state machine
    about to send ACMD41 again, with the status and the error code as
    they were: neither [SdCardACMD41] nor [SdCardResponseACMD41] counts
    the rounds, and each command starts the time-out afresh. *)
Theorem ACMD41_polling_is_unbounded
    (n : nat) (e : Env) (len : nat) (s : State) :
  QueryMessageStatus_COMPLETE e = true ->
  Ssp_token e <> 0 ->
  IsTimeUp (G_u32SystemTime1ms e) (G_u32SystemTime1ms e)
    SD_SPI_WAIT_TIME_MS = false ->
  IsTimeUp (G_u32SystemTime1ms e) (G_u32SystemTime1ms e)
    SD_WAIT_TIME = false ->
  SD_STATUS_IDLE <> SD_STATUS_READY ->
  Z.land SD_STATUS_IDLE BIT7 = 0 ->
  about_to_send_ACMD41 len s ->
  exists s',
    run (polling_rounds n e len) s = Some s' /\
    about_to_send_ACMD41 len s' /\
    SD_CardState s' = SD_CardState s /\
    SD_u8ErrorCode s' = SD_u8ErrorCode s.
Proof.
  intros Hdone Htok Hup1 Hup2 Hne Htop. revert s.
  induction n as [|n IH]; intros s Hs.
  - exists s. repeat split; try apply Hs.
  - destruct (polling_round_again e len s Hdone Htok Hup1 Hup2 Hne Htop Hs)
      as (s1 & Hr1 & Hs1 & Hc1 & He1).
    destruct (IH s1 Hs1) as (s2 & Hr2 & Hs2 & Hc2 & He2).
    exists s2. split.
    + cbn [polling_rounds]. rewrite run_app, Hr1. exact Hr2.
    + split; [exact Hs2 | split; congruence].
Qed.

End FurtherProperties.

(** ** The driver on concrete inputs *)

#[local] Existing Instance example_header.

Lemma example_flag_bits_ok : flag_bits_ok.
Proof.
  split; try reflexivity; try (split; [discriminate | reflexivity]);
    discriminate.
Qed.

(** The poll finds 0xFF: the CMD0 frame goes out in one write of seven
    bytes and the next state is [SdCardWaitCommand]. *)
Lemma SdCardWaitReady_sends_on_0xFF_witness :
  QueryMessageStatus_COMPLETE (at_time 0 true) = true /\
  parser_byte (waiting_ready 0xFF) = 0xFF /\
  snd (exec (SdCardWaitReady (at_time 0 true)) (waiting_ready 0xFF)) =
    [SspWriteData_call 1 7 (Some arr.SD_au8CMD0)
       [0x40; 0; 0; 0; 0; 0x95; 0xFF]] /\
  G_SdCardStateMachine
    (fst (exec (SdCardWaitReady (at_time 0 true)) (waiting_ready 0xFF))) =
    Some fn.SdCardWaitCommand.
Proof.
  split; [reflexivity|]. split; [reflexivity|].
  destruct (SdCardWaitReady_sends_on_0xFF (at_time 0 true)
              (waiting_ready 0xFF) eq_refl) as [H _].
  destruct (H eq_refl) as (Hc & _ & _ & Hsm).
  split; [exact Hc | exact Hsm].
Defined.

(** C1 as the specification states it fails.  The poll finds 0x00, a
    byte other than 0xFF, and the state machine does not go to
    [SdCardWaitCommand]; the poll finds 0xFF, and what is queued is not
    another byte read. *)
Lemma SdCardWaitReady_polls_on_other_bytes :
  ~ (parser_byte (waiting_ready 0x00) <> 0xFF ->
     G_SdCardStateMachine
       (fst (exec (SdCardWaitReady (at_time 0 true)) (waiting_ready 0x00))) =
     Some fn.SdCardWaitCommand) /\
  ~ (parser_byte (waiting_ready 0xFF) = 0xFF ->
     snd (exec (SdCardWaitReady (at_time 0 true)) (waiting_ready 0xFF)) =
     [SspReadByte_call 1]).
Proof.
  split; intros H.
  - assert (E : parser_byte (waiting_ready 0x00) <> 0xFF)
      by (vm_compute; discriminate).
    specialize (H E). vm_compute in H. discriminate H.
  - specialize (H eq_refl). vm_compute in H. discriminate H.
Qed.

(** The failed read of sector 100: after [SdFailedDataTransfer] and the
    wait, the state machine points to [SdCardResponseCMD17]. *)
Lemma failed_transfer_resumes_in_SdCardResponseCMD17_witness :
  reachable (example_after read_rejected) /\
  G_SdCardStateMachine (example_after read_rejected) =
    Some fn.SdFailedDataTransfer /\
  IsTimeUp (G_u32SystemTime1ms (at_time 1000 true))
    (G_u32SystemTime1ms (at_time 0 true)) SD_SPI_WAIT_TIME_MS = true /\
  G_SdCardStateMachine
    (fst (exec (SdCardWaitSSP (at_time 1000 true))
            (fst (exec (SdFailedDataTransfer (at_time 0 true))
                    (example_after read_rejected))))) =
    Some fn.SdCardResponseCMD17.
Proof.
  assert (Hreach : reachable (example_after read_rejected)).
  { apply (run_reachable read_rejected booted); [apply reachable_booted|].
    vm_compute. reflexivity. }
  assert (Hsm : G_SdCardStateMachine (example_after read_rejected) =
                Some fn.SdFailedDataTransfer) by (vm_compute; reflexivity).
  assert (Hup : IsTimeUp (G_u32SystemTime1ms (at_time 1000 true))
                  (G_u32SystemTime1ms (at_time 0 true)) SD_SPI_WAIT_TIME_MS
                = true) by (vm_compute; reflexivity).
  split; [exact Hreach|]. split; [exact Hsm|]. split; [exact Hup|].
  destruct (failed_transfer_resumes_in_SdCardResponseCMD17
              (at_time 0 true) (at_time 1000 true)
              (example_after read_rejected) Hreach Hsm Hup)
    as (_ & _ & _ & _ & _ & _ & H & _).
  exact H.
Defined.

(** C3, what the code does.  A version-2 card is detected as far as
    ACMD41 and lost; then a version-1 card is detected.  When the ACMD41
    frame is written for the second card, [_SD_TYPE_SD2] is clear and
    bit 6 of element 1 of the frame is still set. *)
Theorem ACMD41_bit6_outlives_the_v2_card :
  let s := example_after v2_card_then_v1_card in
  run v2_card_then_v1_card booted = Some s /\
  G_SdCardStateMachine s = Some fn.SdCardWaitReady /\
  SD_NextCommand s = Some arr.SD_au8ACMD41 /\
  Z.land (SD_u32Flags s) _SD_TYPE_SD2 = 0 /\
  snd (exec (SdCardWaitReady (at_time 2000 true)) s) =
    [SspWriteData_call 1 7 (Some arr.SD_au8ACMD41)
       [0x69; 0x40; 0; 0; 0; 0xFF; 0xFF]] /\
  Z.testbit (rd [0x69; 0x40; 0; 0; 0; 0xFF; 0xFF] 1) 6 = true.
Proof.
  vm_compute. repeat split.
Qed.



(** The case the theorem for C4 leaves aside.  The echo is 0x01 0x55:
    [SdCardReadCMD8] raises no error, its next pass accepts the bytes
    0x01 0xAA that lie four places on in the receive buffer, and the run
    ends in [SdCardReadyIdle] with [_SD_CARD_HC] set. *)
Lemma wrong_check_pattern_is_passed_over :
  detecting_test detect_v2_wrong_pattern booted = true /\
  run detect_v2_wrong_pattern booted =
    Some (example_after detect_v2_wrong_pattern) /\
  cmd8_echo detect_v2_wrong_pattern booted = Some (0x01, 0x55) /\
  cmd8_echo_pattern_differs detect_v2_wrong_pattern booted = true /\
  happened SdCardReadCMD8_accepts detect_v2_wrong_pattern booted = true /\
  G_SdCardStateMachine (example_after detect_v2_wrong_pattern) =
    Some fn.SdCardReadyIdle /\
  Z.land (SD_u32Flags (example_after detect_v2_wrong_pattern))
    _SD_CARD_HC <> 0.
Proof.
  repeat (split; [vm_compute; reflexivity|]). vm_compute. discriminate.
Qed.

(** Sector 100 on the version-1 card: the CMD17 frame carries 0, 0, 200,
    0. *)
Lemma CMD17_argument_is_the_block_address_witness :
  0 <= 100 < u32_modulus /\
  SD_CardState (example_after detect_v1) = SD_IDLE /\
  length (SD_au8CMD17 (example_after detect_v1)) = 7%nat /\
  P0_22_SD_DET (at_time 0 true) = false /\
  SspRequest_result (at_time 0 true) <> 0 /\
  let s2 :=
    fst (exec (SdCardReadyIdle (at_time 0 true))
           (snd (fst (SdReadBlock 100 (example_after detect_v1))))) in
  rd (SD_au8CMD17 s2) 1 = 0 /\ rd (SD_au8CMD17 s2) 2 = 0 /\
  rd (SD_au8CMD17 s2) 3 = 200 /\ rd (SD_au8CMD17 s2) 4 = 0.
Proof.
  assert (H1 : 0 <= 100 < u32_modulus)
    by (split; [discriminate | reflexivity]).
  assert (H2 : SD_CardState (example_after detect_v1) = SD_IDLE)
    by (vm_compute; reflexivity).
  assert (H3 : length (SD_au8CMD17 (example_after detect_v1)) = 7%nat)
    by (vm_compute; reflexivity).
  assert (H5 : SspRequest_result (at_time 0 true) <> 0)
    by (intros E; discriminate E).
  repeat (split; [assumption || reflexivity|]).
  apply (CMD17_argument_is_the_block_address 100 (at_time 0 true)
           (example_after detect_v1) H1 H2 H3 eq_refl H5).
  - vm_compute. reflexivity.
  - reflexivity.
Defined.

(** C6 as the specification states it fails.  Sector 8388608 on the
    version-1 card, which is not of high capacity: the request is
    accepted, the address stored is 0 and the CMD17 frame carries 0, 0,
    0, 0, which is not 8388608 * 512. *)
Lemma SdReadBlock_address_wraps_around :
  let s := example_after detect_v1 in
  let s1 := snd (fst (SdReadBlock 8388608 s)) in
  let s2 := fst (exec (SdCardReadyIdle (at_time 0 true)) s1) in
  0 <= 8388608 < u32_modulus /\
  SD_CardState s = SD_IDLE /\
  Z.land (SD_u32Flags s) _SD_CARD_HC = 0 /\
  fst (fst (SdReadBlock 8388608 s)) = true /\
  SD_u32Address s1 = 0 /\
  SD_NextCommand s2 = Some arr.SD_au8CMD17 /\
  SD_au8CMD17 s2 = [0x51; 0; 0; 0; 0; 0xFF; 0xFF] /\
  ~ (big_endian (rd (SD_au8CMD17 s2) 1) (rd (SD_au8CMD17 s2) 2)
       (rd (SD_au8CMD17 s2) 3) (rd (SD_au8CMD17 s2) 4) = 8388608 * 512).
Proof.
  cbv zeta.
  split; [split; [discriminate | reflexivity]|].
  repeat (split; [vm_compute; reflexivity|]).
  vm_compute. discriminate.
Qed.

(** The deadline has passed and the poll finds 0x00: the pass ends in
    [SdError] with [SD_ERROR_TIMEOUT]. *)
Lemma timeout_leaves_the_wait_state_witness :
  timeout_period fn.SdCardWaitReady = Some SD_SPI_WAIT_TIME_MS /\
  IsTimeUp (G_u32SystemTime1ms (at_time 1000 true))
    (SD_u32Timeout (waiting_ready 0x00)) SD_SPI_WAIT_TIME_MS = true /\
  restarts_timeout fn.SdCardWaitReady (at_time 1000 true)
    (waiting_ready 0x00) = false /\
  let s' :=
    fst (exec (state_function fn.SdCardWaitReady (at_time 1000 true))
           (waiting_ready 0x00)) in
  (G_SdCardStateMachine s' = Some fn.SdError \/
   G_SdCardStateMachine s' = Some fn.SdFailedDataTransfer) /\
  SD_u8ErrorCode s' = SD_ERROR_TIMEOUT.
Proof.
  assert (Hup : IsTimeUp (G_u32SystemTime1ms (at_time 1000 true))
                  (SD_u32Timeout (waiting_ready 0x00)) SD_SPI_WAIT_TIME_MS
                = true) by (vm_compute; reflexivity).
  assert (Hr : restarts_timeout fn.SdCardWaitReady (at_time 1000 true)
                 (waiting_ready 0x00) = false) by (vm_compute; reflexivity).
  split; [reflexivity|]. split; [exact Hup|]. split; [exact Hr|].
  apply (timeout_leaves_the_wait_state fn.SdCardWaitReady
           SD_SPI_WAIT_TIME_MS (at_time 1000 true) (waiting_ready 0x00)
           eq_refl Hup).
  exact Hr.
Defined.

(** C8 as the specification states it fails.  The deadline has passed
    and the poll finds 0xFF: the frame is written, the reference time is
    taken anew, and the pass ends in [SdCardWaitCommand], not in an error
    state. *)
Lemma SdCardWaitReady_past_deadline_sends_command :
  timeout_period fn.SdCardWaitReady = Some SD_SPI_WAIT_TIME_MS /\
  G_SdCardStateMachine (waiting_ready 0xFF) = Some fn.SdCardWaitReady /\
  ~ (IsTimeUp (G_u32SystemTime1ms (at_time 1000 true))
       (SD_u32Timeout (waiting_ready 0xFF)) SD_SPI_WAIT_TIME_MS = true ->
     let s' :=
       fst (exec (SdCardWaitReady (at_time 1000 true))
              (waiting_ready 0xFF)) in
     (G_SdCardStateMachine s' = Some fn.SdError \/
      G_SdCardStateMachine s' = Some fn.SdFailedDataTransfer) /\
     SD_u8ErrorCode s' = SD_ERROR_TIMEOUT).
Proof.
  split; [reflexivity|]. split; [reflexivity|].
  intros H. specialize (H eq_refl). vm_compute in H.
  destruct H as [[H|H] _]; discriminate H.
Qed.

(** From index 10 of a buffer of 1024 bytes, 2000 steps lead to index
    986. *)
Lemma AdvanceSD_pu8RxBufferParser_wraps_witness :
  0 <= SD_pu8RxBufferParser (waiting_ready 0) < SDCARD_RX_BUFFER_SIZE /\
  0 <= 2000 /\
  SD_pu8RxBufferParser
    (fst (exec (AdvanceSD_pu8RxBufferParser 2000) (waiting_ready 0))) = 986.
Proof.
  assert (H1 : 0 <= SD_pu8RxBufferParser (waiting_ready 0)
               < SDCARD_RX_BUFFER_SIZE)
    by (split; [discriminate | reflexivity]).
  assert (H2 : 0 <= 2000) by discriminate.
  split; [exact H1|]. split; [exact H2|].
  destruct (AdvanceSD_pu8RxBufferParser_wraps (waiting_ready 0) 2000 H1 H2)
    as (E & _).
  rewrite E. reflexivity.
Defined.

(** ** The further properties on concrete inputs *)

Lemma example_type_flags_ok : type_flags_ok.
Proof.
  split; try exact example_flag_bits_ok; try reflexivity;
    try (split; [discriminate | reflexivity]); discriminate.
Qed.

(** The poll finds 0xFF and [SdCardWaitReady] moves the parse pointer
    seven places on, from 10 to 17. *)
Lemma pointers_stay_in_buffer_witness :
  pointers_in_buffer (waiting_ready 0xFF) /\
  keeps_write_pointer_inside (Tick (at_time 0 true)) /\
  act (Tick (at_time 0 true)) (waiting_ready 0xFF) =
    Some (fst (exec (SdCardWaitReady (at_time 0 true))
                 (waiting_ready 0xFF))) /\
  SD_pu8RxBufferParser
    (fst (exec (SdCardWaitReady (at_time 0 true)) (waiting_ready 0xFF)))
    = 17 /\
  pointers_in_buffer
    (fst (exec (SdCardWaitReady (at_time 0 true)) (waiting_ready 0xFF))).
Proof.
  assert (H1 : pointers_in_buffer (waiting_ready 0xFF))
    by (split; split; (discriminate || reflexivity)).
  assert (H2 : act (Tick (at_time 0 true)) (waiting_ready 0xFF) =
               Some (fst (exec (SdCardWaitReady (at_time 0 true))
                            (waiting_ready 0xFF))))
    by (vm_compute; reflexivity).
  split; [exact H1|]. split; [exact I|]. split; [exact H2|].
  split; [vm_compute; reflexivity|].
  exact (pointers_stay_in_buffer (Tick (at_time 0 true))
           (waiting_ready 0xFF) _ H1 I H2).
Defined.

(** A receive buffer full of 0x55: after [SdCardInitialize] element 700
    reads zero. *)
Lemma SdCardInitialize_clears_the_buffer_witness :
  Z.of_nat (length (SD_au8RxBuffer (waiting_ready 0x55))) =
    SDCARD_RX_BUFFER_SIZE /\
  rd (SD_au8RxBuffer (waiting_ready 0x55)) 700 = 0x55 /\
  rd (SD_au8RxBuffer (fst (exec SdCardInitialize (waiting_ready 0x55))))
    700 = 0.
Proof.
  assert (H1 : Z.of_nat (length (SD_au8RxBuffer (waiting_ready 0x55))) =
               SDCARD_RX_BUFFER_SIZE) by (vm_compute; reflexivity).
  split; [exact H1|]. split; [vm_compute; reflexivity|].
  destruct (SdCardInitialize_clears_the_buffer (waiting_ready 0x55) H1)
    as (_ & H & _).
  apply H. discriminate.
Defined.

(** After the failed read of sector 100 the CMD17 array holds the
    address bytes 0, 0, 200, 0 between its opcode and its CRC. *)
Lemma command_arrays_stay_frames_witness :
  reachable (example_after read_rejected) /\
  SD_au8CMD17 (example_after read_rejected) =
    [0x51; 0; 0; 200; 0; 0xFF; 0xFF] /\
  frames_intact (example_after read_rejected).
Proof.
  assert (Hreach : reachable (example_after read_rejected)).
  { apply (run_reachable read_rejected booted); [apply reachable_booted|].
    vm_compute. reflexivity. }
  split; [exact Hreach|]. split; [vm_compute; reflexivity|].
  exact (command_arrays_stay_frames (example_after read_rejected) Hreach).
Defined.

(** With ten retries, after the detection of the version-1 card. *)
Lemma retry_counter_stays_in_range_witness :
  0 <= SD_CMD_RETRIES /\
  reachable (example_after detect_v1) /\
  0 <= u8Retries (example_after detect_v1) <= SD_CMD_RETRIES.
Proof.
  assert (H0 : 0 <= SD_CMD_RETRIES) by discriminate.
  assert (Hreach : reachable (example_after detect_v1)).
  { apply (run_reachable detect_v1 booted); [apply reachable_booted|].
    vm_compute. reflexivity. }
  split; [exact H0|]. split; [exact Hreach|].
  exact (retry_counter_stays_in_range (example_after detect_v1) H0 Hreach).
Defined.

(** The CMD0 frame has gone out and the card answers 0xFF to two polls
    in a row: two of the ten retries are used up. *)
Lemma SdCardWaitCommand_gives_up_retrying_witness :
  let s :=
    fst (exec (SdCardWaitReady (at_time 0 true)) (waiting_ready 0xFF)) in
  SD_WaitReturnState s <> Some fn.SdCardWaitCommand /\
  0 <= u8Retries s /\
  keeps_waiting_for_command [no_response_yet; no_response_yet] s /\
  Z.of_nat (length [no_response_yet; no_response_yet]) <= u8Retries s.
Proof.
  intros s.
  assert (H1 : SD_WaitReturnState s <> Some fn.SdCardWaitCommand)
    by (vm_compute; discriminate).
  assert (H2 : 0 <= u8Retries s) by (vm_compute; discriminate).
  assert (H3 : keeps_waiting_for_command
                 [no_response_yet; no_response_yet] s)
    by (vm_compute; repeat split).
  split; [exact H1|]. split; [exact H2|]. split; [exact H3|].
  exact (SdCardWaitCommand_gives_up_retrying
           [no_response_yet; no_response_yet] s H1 H2 H3).
Defined.

(** After the failed read of sector 100 the state machine points to
    [SdFailedDataTransfer] and the state stored for the return is
    [SdCardResponseCMD17]; the pass that follows leaves the state
    machine in [SdCardWaitSSP] with that state still stored. *)
Lemma state_machine_is_never_null_witness :
  reachable (example_after read_rejected) /\
  G_SdCardStateMachine (example_after read_rejected) =
    Some fn.SdFailedDataTransfer /\
  SD_WaitReturnState (example_after read_rejected) <> None /\
  exists s' c,
    tick (at_time 0 true) (example_after read_rejected) = Some (s', c) /\
    callable s'.
Proof.
  assert (Hreach : reachable (example_after read_rejected)).
  { apply (run_reachable read_rejected booted); [apply reachable_booted|].
    vm_compute. reflexivity. }
  assert (Hsm : G_SdCardStateMachine (example_after read_rejected) =
                Some fn.SdFailedDataTransfer) by (vm_compute; reflexivity).
  split; [exact Hreach|]. split; [exact Hsm|].
  destruct (state_machine_is_never_null (at_time 0 true)
              (example_after read_rejected) Hreach) as [[_ Hret] Hnext].
  rewrite Hsm in Hret. split; [exact Hret | exact Hnext].
Defined.

(** [SdCardWaitReady] at time 0, its poll still pending. *)
Lemma pending_pass_changes_nothing_witness :
  polls_a_transfer fn.SdCardWaitReady = true /\
  QueryMessageStatus_COMPLETE (at_time 0 false) = false /\
  IsTimeUp (G_u32SystemTime1ms (at_time 0 false))
    (SD_u32Timeout (waiting_ready 0)) SD_SPI_WAIT_TIME_MS = false /\
  exec (SdCardWaitReady (at_time 0 false)) (waiting_ready 0) =
    (waiting_ready 0, []).
Proof.
  split; [reflexivity|]. split; [reflexivity|].
  split; [vm_compute; reflexivity|].
  apply (pending_pass_changes_nothing fn.SdCardWaitReady (at_time 0 false)
           (waiting_ready 0) eq_refl eq_refl).
  intros period H. injection H as <-. vm_compute. reflexivity.
Defined.

(** Sector 100 of the version-1 card is asked for and the bus is refused
    at time 0; at time 1000 the state machine is back in
    [SdCardReadyIdle], the status is still [SD_READING] and the address
    still 100 * 512. *)
Lemma read_request_outlives_bus_refusal_witness :
  P0_22_SD_DET (bus_refused 0) = false /\
  SD_CardState (example_after read_requested) = SD_READING /\
  SspRequest_result (bus_refused 0) = 0 /\
  IsTimeUp (G_u32SystemTime1ms (at_time 1000 true))
    (G_u32SystemTime1ms (bus_refused 0)) SD_SPI_WAIT_TIME_MS = true /\
  let s2 :=
    fst (exec (SdCardWaitSSP (at_time 1000 true))
           (fst (exec (SdCardReadyIdle (bus_refused 0))
                   (example_after read_requested)))) in
  G_SdCardStateMachine s2 = Some fn.SdCardReadyIdle /\
  SD_CardState s2 = SD_READING /\
  SD_u32Address s2 = 51200.
Proof.
  assert (H2 : SD_CardState (example_after read_requested) = SD_READING)
    by (vm_compute; reflexivity).
  assert (H4 : IsTimeUp (G_u32SystemTime1ms (at_time 1000 true))
                 (G_u32SystemTime1ms (bus_refused 0)) SD_SPI_WAIT_TIME_MS
               = true) by (vm_compute; reflexivity).
  split; [reflexivity|]. split; [exact H2|]. split; [reflexivity|].
  split; [exact H4|].
  destruct (read_request_outlives_bus_refusal (bus_refused 0)
              (at_time 1000 true) (example_after read_requested)
              eq_refl H2 eq_refl H4) as (_ & _ & Hsm & Hst & Hadr & _).
  split; [exact Hsm|]. split; [exact Hst|].
  rewrite Hadr. vm_compute. reflexivity.
Defined.

(** CMD0 with the card answering 0xFF to the poll and 0x01 to the frame:
    control goes to [SdCardResponseCMD0] with the parse pointer seven
    places on. *)
Lemma command_exchange_witness :
  Ssp_token (at_time 0 true) <> 0 /\
  QueryMessageStatus_COMPLETE (at_time 0 true) = true /\
  rd (repeat 0xFF 1024) (SD_pu8RxBufferParser (waiting_ready 0)) = 0xFF /\
  Z.land
    (rd (repeat 0x01 1024)
       (advance_loop (Z.to_nat SD_CMD_SIZE)
          (SD_pu8RxBufferParser (waiting_ready 0)))) BIT7 = 0 /\
  IsTimeUp (G_u32SystemTime1ms (at_time 0 true))
    (G_u32SystemTime1ms (at_time 0 true)) SD_SPI_WAIT_TIME_MS = false /\
  IsTimeUp (G_u32SystemTime1ms (at_time 0 true))
    (G_u32SystemTime1ms (at_time 0 true)) SD_WAIT_TIME = false /\
  let s1 :=
    set_SD_WaitReturnState (Some fn.SdCardResponseCMD0)
      (fst (exec (SdCommand (at_time 0 true) arr.SD_au8CMD0)
              (waiting_ready 0))) in
  let s2 :=
    fst (exec (SdCardWaitReady (at_time 0 true))
           (received (repeat 0xFF 1024) 0 s1)) in
  let s3 :=
    fst (exec (SdCardWaitCommand (at_time 0 true))
           (received (repeat 0x01 1024) 0 s2)) in
  G_SdCardStateMachine s3 = Some fn.SdCardResponseCMD0 /\
  SD_pu8RxBufferParser s3 = 17.
Proof.
  assert (H1 : Ssp_token (at_time 0 true) <> 0)
    by (intros E; discriminate E).
  assert (H4 : rd (repeat 0xFF 1024)
                 (SD_pu8RxBufferParser (waiting_ready 0)) = 0xFF)
    by (vm_compute; reflexivity).
  assert (H5 : Z.land
                 (rd (repeat 0x01 1024)
                    (advance_loop (Z.to_nat SD_CMD_SIZE)
                       (SD_pu8RxBufferParser (waiting_ready 0)))) BIT7 = 0)
    by (vm_compute; reflexivity).
  assert (H6 : IsTimeUp (G_u32SystemTime1ms (at_time 0 true))
                 (G_u32SystemTime1ms (at_time 0 true)) SD_SPI_WAIT_TIME_MS
               = false) by (vm_compute; reflexivity).
  assert (H7 : IsTimeUp (G_u32SystemTime1ms (at_time 0 true))
                 (G_u32SystemTime1ms (at_time 0 true)) SD_WAIT_TIME
               = false) by (vm_compute; reflexivity).
  split; [exact H1|]. split; [reflexivity|]. split; [exact H4|].
  split; [exact H5|]. split; [exact H6|]. split; [exact H7|].
  destruct (command_exchange arr.SD_au8CMD0 fn.SdCardResponseCMD0
              (at_time 0 true) (at_time 0 true) (at_time 0 true)
              (repeat 0xFF 1024) (repeat 0x01 1024) 0 0 (waiting_ready 0)
              H1 eq_refl eq_refl H4 H5 H6 H7)
    as (_ & _ & _ & Hsm & Hp & _).
  split; [exact Hsm|]. rewrite Hp. vm_compute. reflexivity.
Defined.

(** The echo reads 0x01 0x01 where 0x01 0xAA is expected: no call, and
    the parse pointer goes from 10 to 14. *)
Lemma CMD8_pattern_mismatch_is_not_reported_witness :
  QueryMessageStatus_COMPLETE (at_time 0 true) = true /\
  cmd8_voltage_byte (waiting_ready 0x01) = SD_VHS_VALUE /\
  cmd8_pattern_byte (waiting_ready 0x01) <> SD_CHECK_PATTERN /\
  IsTimeUp (G_u32SystemTime1ms (at_time 0 true))
    (SD_u32Timeout (waiting_ready 0x01)) SD_SPI_WAIT_TIME_MS = false /\
  exec (SdCardReadCMD8 (at_time 0 true)) (waiting_ready 0x01) =
    (set_SD_pu8RxBufferParser 14 (waiting_ready 0x01), []).
Proof.
  assert (H2 : cmd8_voltage_byte (waiting_ready 0x01) = SD_VHS_VALUE)
    by (vm_compute; reflexivity).
  assert (H3 : cmd8_pattern_byte (waiting_ready 0x01) <> SD_CHECK_PATTERN)
    by (vm_compute; discriminate).
  assert (H4 : IsTimeUp (G_u32SystemTime1ms (at_time 0 true))
                 (SD_u32Timeout (waiting_ready 0x01)) SD_SPI_WAIT_TIME_MS
               = false) by (vm_compute; reflexivity).
  split; [reflexivity|]. split; [exact H2|]. split; [exact H3|].
  split; [exact H4|].
  rewrite (CMD8_pattern_mismatch_is_not_reported (at_time 0 true)
             (waiting_ready 0x01) eq_refl H2 H3 H4).
  vm_compute. reflexivity.
Defined.

(** A receive buffer full of 0x5A and a client buffer of 512 zeros: the
    client finds 0x5A at index 100. *)
Lemma block_reaches_the_client_witness :
  QueryMessageStatus_COMPLETE (at_time 0 true) = true /\
  IsTimeUp (G_u32SystemTime1ms (at_time 0 true))
    (SD_u32Timeout (waiting_ready 0x5A)) SD_SECTOR_READ_TIMEOUT_MS
    = false /\
  512 <= Z.of_nat (length (repeat 0 512)) /\
  let '(r, dst', s2, c2) :=
    SdGetReadData (repeat 0 512)
      (fst (exec (SdCardDataTransfer (at_time 0 true))
              (waiting_ready 0x5A))) in
  r = true /\ SD_CardState s2 = SD_IDLE /\ rd dst' 100 = 0x5A.
Proof.
  assert (H2 : IsTimeUp (G_u32SystemTime1ms (at_time 0 true))
                 (SD_u32Timeout (waiting_ready 0x5A))
                 SD_SECTOR_READ_TIMEOUT_MS = false)
    by (vm_compute; reflexivity).
  assert (H3 : 512 <= Z.of_nat (length (repeat 0 512)))
    by (vm_compute; discriminate).
  split; [reflexivity|]. split; [exact H2|]. split; [exact H3|].
  generalize (block_reaches_the_client (at_time 0 true) (repeat 0 512)
                (waiting_ready 0x5A) eq_refl H2 H3).
  cbv zeta.
  destruct (SdGetReadData (repeat 0 512)
              (fst (exec (SdCardDataTransfer (at_time 0 true))
                      (waiting_ready 0x5A)))) as [[[r dst'] s2] c2].
  intros (_ & _ & _ & _ & _ & _ & Hr & _ & Hst & _ & _ & Hd).
  split; [exact Hr|]. split; [exact Hst|].
  rewrite Hd; [vm_compute; reflexivity | split; discriminate || reflexivity].
Defined.

(** The version-1 card is detected and pulled out: at time 1000 the
    state machine is in [SdIdleNoCard] and the version-1 flag is clear. *)
Lemma card_removal_ends_in_SdIdleNoCard_witness :
  type_flags_ok /\
  P0_22_SD_DET (card_absent 0) = true /\
  IsTimeUp (G_u32SystemTime1ms (at_time 1000 true))
    (G_u32SystemTime1ms (card_absent 0)) SD_SPI_WAIT_TIME_MS = true /\
  Z.land (SD_u32Flags (example_after detect_v1)) _SD_TYPE_SD1 <> 0 /\
  let s1 :=
    fst (exec (SdCardReadyIdle (card_absent 0))
           (example_after detect_v1)) in
  let s2 := fst (exec (SdCardWaitSSP (at_time 1000 true)) s1) in
  Z.land (SD_u32Flags s1) _SD_TYPE_SD1 = 0 /\
  G_SdCardStateMachine s2 = Some fn.SdIdleNoCard /\
  SD_CardState s2 = SD_NO_CARD.
Proof.
  assert (H2 : IsTimeUp (G_u32SystemTime1ms (at_time 1000 true))
                 (G_u32SystemTime1ms (card_absent 0)) SD_SPI_WAIT_TIME_MS
               = true) by (vm_compute; reflexivity).
  split; [exact example_type_flags_ok|]. split; [reflexivity|].
  split; [exact H2|]. split; [vm_compute; discriminate|].
  destruct (card_removal_ends_in_SdIdleNoCard example_type_flags_ok
              (card_absent 0) (at_time 1000 true)
              (example_after detect_v1) eq_refl H2)
    as (_ & _ & _ & _ & H1 & _ & _ & Hsm & Hst & _).
  split; [exact H1|]. split; [exact Hsm | exact Hst].
Defined.

(** The first pass after [SdCardInitialize] with a card in the socket:
    the next state is [SdCardDummies]. *)
Lemma SdIdleNoCard_starts_a_detection_witness :
  type_flags_ok /\
  P0_22_SD_DET (at_time 0 true) = false /\
  SspRequest_result (at_time 0 true) <> 0 /\
  Ssp_token (at_time 0 true) <> 0 /\
  G_SdCardStateMachine (fst (exec (SdIdleNoCard (at_time 0 true)) booted))
    = Some fn.SdCardDummies.
Proof.
  assert (H2 : SspRequest_result (at_time 0 true) <> 0)
    by (intros E; discriminate E).
  assert (H3 : Ssp_token (at_time 0 true) <> 0)
    by (intros E; discriminate E).
  split; [exact example_type_flags_ok|]. split; [reflexivity|].
  split; [exact H2|]. split; [exact H3|].
  destruct (SdIdleNoCard_starts_a_detection example_type_flags_ok
              (at_time 0 true) booted) as (_ & _ & H).
  destruct (H eq_refl H2) as (_ & _ & _ & _ & _ & _ & Hgo & _).
  exact (proj2 (Hgo H3)).
Defined.

(** The version-2 high-capacity card: marked as of one version. *)
Lemma detection_marks_one_version_witness :
  type_flags_ok /\
  G_SdCardStateMachine booted = Some fn.SdIdleNoCard /\
  detecting detect_v2_high_capacity booted /\
  run detect_v2_high_capacity booted =
    Some (example_after detect_v2_high_capacity) /\
  G_SdCardStateMachine (example_after detect_v2_high_capacity) =
    Some fn.SdCardReadyIdle /\
  one_version (example_after detect_v2_high_capacity).
Proof.
  assert (Hdet : detecting detect_v2_high_capacity booted)
    by (apply detecting_test_correct; vm_compute; reflexivity).
  assert (Hrun : run detect_v2_high_capacity booted =
                 Some (example_after detect_v2_high_capacity))
    by (vm_compute; reflexivity).
  assert (Hend : G_SdCardStateMachine
                   (example_after detect_v2_high_capacity) =
                 Some fn.SdCardReadyIdle) by (vm_compute; reflexivity).
  split; [exact example_type_flags_ok|]. split; [reflexivity|].
  split; [exact Hdet|]. split; [exact Hrun|]. split; [exact Hend|].
  destruct (detection_marks_one_version example_type_flags_ok
              detect_v2_high_capacity booted
              (example_after detect_v2_high_capacity)
              eq_refl Hdet Hrun Hend) as (_ & _ & H & _).
  exact H.
Defined.

(** The version-1 card is not of high capacity: CMD16 was
    acknowledged. *)
Lemma block_length_is_set_unless_high_capacity_witness :
  type_flags_ok /\
  G_SdCardStateMachine booted = Some fn.SdIdleNoCard /\
  detecting detect_v1 booted /\
  run detect_v1 booted = Some (example_after detect_v1) /\
  G_SdCardStateMachine (example_after detect_v1) =
    Some fn.SdCardReadyIdle /\
  Z.land (SD_u32Flags (example_after detect_v1)) _SD_CARD_HC = 0 /\
  happened cmd16_acknowledged detect_v1 booted = true.
Proof.
  assert (Hdet : detecting detect_v1 booted)
    by (apply detecting_test_correct; vm_compute; reflexivity).
  assert (Hrun : run detect_v1 booted = Some (example_after detect_v1))
    by (vm_compute; reflexivity).
  assert (Hend : G_SdCardStateMachine (example_after detect_v1) =
                 Some fn.SdCardReadyIdle) by (vm_compute; reflexivity).
  assert (Hhc : Z.land (SD_u32Flags (example_after detect_v1))
                  _SD_CARD_HC = 0) by (vm_compute; reflexivity).
  split; [exact example_type_flags_ok|]. split; [reflexivity|].
  split; [exact Hdet|]. split; [exact Hrun|]. split; [exact Hend|].
  split; [exact Hhc|].
  exact (proj2 (block_length_is_set_unless_high_capacity
                  example_type_flags_ok detect_v1 booted
                  (example_after detect_v1) eq_refl Hdet Hrun Hend) Hhc).
Defined.

(** The card has answered the first CMD55 and goes on answering "idle":
    after three rounds the state machine is about to send ACMD41 for the
    fourth time, the status still [SD_NO_CARD]. *)
Lemma ACMD41_polling_is_unbounded_witness :
  QueryMessageStatus_COMPLETE (at_time 0 true) = true /\
  Ssp_token (at_time 0 true) <> 0 /\
  IsTimeUp (G_u32SystemTime1ms (at_time 0 true))
    (G_u32SystemTime1ms (at_time 0 true)) SD_SPI_WAIT_TIME_MS = false /\
  IsTimeUp (G_u32SystemTime1ms (at_time 0 true))
    (G_u32SystemTime1ms (at_time 0 true)) SD_WAIT_TIME = false /\
  SD_STATUS_IDLE <> SD_STATUS_READY /\
  Z.land SD_STATUS_IDLE BIT7 = 0 /\
  about_to_send_ACMD41 1024 (example_after card_answers_CMD55) /\
  exists s',
    run (polling_rounds 3 (at_time 0 true) 1024)
      (example_after card_answers_CMD55) = Some s' /\
    G_SdCardStateMachine s' = Some fn.SdCardACMD41 /\
    SD_CardState s' = SD_NO_CARD.
Proof.
  assert (H2 : Ssp_token (at_time 0 true) <> 0)
    by (intros E; discriminate E).
  assert (H3 : IsTimeUp (G_u32SystemTime1ms (at_time 0 true))
                 (G_u32SystemTime1ms (at_time 0 true)) SD_SPI_WAIT_TIME_MS
               = false) by (vm_compute; reflexivity).
  assert (H4 : IsTimeUp (G_u32SystemTime1ms (at_time 0 true))
                 (G_u32SystemTime1ms (at_time 0 true)) SD_WAIT_TIME
               = false) by (vm_compute; reflexivity).
  assert (H5 : SD_STATUS_IDLE <> SD_STATUS_READY)
    by (intros E; discriminate E).
  assert (H7 : about_to_send_ACMD41 1024
                 (example_after card_answers_CMD55)).
  { split; [vm_compute; reflexivity|]. split; [vm_compute; reflexivity|].
    split; [reflexivity|]. vm_compute. split; [discriminate | reflexivity]. }
  split; [reflexivity|]. split; [exact H2|]. split; [exact H3|].
  split; [exact H4|]. split; [exact H5|]. split; [reflexivity|].
  split; [exact H7|].
  destruct (ACMD41_polling_is_unbounded 3 (at_time 0 true) 1024
              (example_after card_answers_CMD55)
              eq_refl H2 H3 H4 H5 eq_refl H7)
    as (s' & Hrun & (Hsm & _) & Hst & _).
  exists s'. split; [exact Hrun|]. split; [exact Hsm|].
  rewrite Hst. vm_compute. reflexivity.
Defined.
